(** * Badread command-line front end: validation of the [simulate] arguments

    Shallow embedding of [badread/badread.py]: the declarations of the
    [model] and [simulate] sub-parsers, [check_simulate_args] and the
    dispatch in [main].

    Python objects are modelled as they are at run time:
    - a [float] is an IEEE 754 binary64 number, here a [spec_float] with
      precision 53 and maximal exponent 1024 (NaN and the infinities
      included);
    - an [argparse.Namespace] is a finite map from attribute names to
      values;
    - [sys.exit(msg)] and uncaught exceptions are outcomes of their own. *)

From Stdlib Require Import ZArith String Ascii List Lia Bool.
From Stdlib Require Import SpecFloat.
From stdpp Require Import base option list gmap strings pretty.

Local Open Scope string_scope.
Local Open Scope Z_scope.

(** ** Binary64 floats *)

Module Float64.

Definition prec : Z := 53.
Definition emax : Z := 1024.

Abbreviation float := spec_float.

Definition nan : float := S754_nan.
Definition zero : float := S754_zero false.

(** Correctly rounded (nearest, ties to even) conversion of an integer. *)
Definition of_Z (z : Z) : float := binary_normalize prec emax z 0 false.

Definition add : float -> float -> float := SFadd prec emax.
Definition opp : float -> float := SFopp.

Definition is_nan (f : float) : bool :=
  match f with S754_nan => true | _ => false end.

Definition is_inf (f : float) : bool :=
  match f with S754_infinity _ => true | _ => false end.

(** Three-way comparison; [None] when an operand is NaN. *)
Definition compare : float -> float -> option comparison := SFcompare.

(** Exact comparison of an integer with a float, as Python performs it
    (the integer is not rounded to a float first). *)
Definition compare_Z (z : Z) (f : float) : option comparison :=
  match f with
  | S754_nan => None
  | S754_infinity s => Some (if s then Gt else Lt)
  | S754_zero _ => Some (z ?= 0)
  | S754_finite s m e =>
      let v := cond_Zopp s (Zpos m) in
      Some match e with
           | Zneg k => (z * 2 ^ Zpos k) ?= v
           | _ => z ?= v * 2 ^ e
           end
  end.

End Float64.

Abbreviation float := Float64.float.

(** ** Python values, exceptions and the operators the program uses *)

Inductive value :=
  | VNone
  | VBool (b : bool)
  | VInt (z : Z)
  | VFloat (f : float)
  | VStr (s : string).

Inductive exn :=
  | AttributeError
  | TypeError
  | ValueError
  | IndexError
  | OverflowError.

(** Result of a side-effect free expression. *)
Inductive res (A : Type) :=
  | Ok (a : A)
  | Err (e : exn).
Arguments Ok {A} a.
Arguments Err {A} e.

Definition res_bind {A B} (r : res A) (k : A -> res B) : res B :=
  match r with Ok a => k a | Err e => Err e end.

(** The numeric tower: [bool] is a subclass of [int]. *)
Inductive number :=
  | NInt (z : Z)
  | NFloat (f : float).

Definition as_number (v : value) : option number :=
  match v with
  | VBool b => Some (NInt (Z.b2z b))
  | VInt z => Some (NInt z)
  | VFloat f => Some (NFloat f)
  | VNone | VStr _ => None
  end.

Definition number_compare (a b : number) : option comparison :=
  match a, b with
  | NInt x, NInt y => Some (x ?= y)
  | NInt x, NFloat g => Float64.compare_Z x g
  | NFloat f, NInt y => option_map CompOpp (Float64.compare_Z y f)
  | NFloat f, NFloat g => Float64.compare f g
  end.

(** Ordering of two values one of which is a number: anything that is
    not a number raises [TypeError]. The inner [option] is [None] when
    the operands are unordered (a NaN is involved). *)
Definition py_compare (a b : value) : res (option comparison) :=
  match as_number a, as_number b with
  | Some x, Some y => Ok (number_compare x y)
  | _, _ => Err TypeError
  end.

Definition py_gt (a b : value) : res bool :=
  res_bind (py_compare a b) (fun c =>
    Ok match c with Some Gt => true | _ => false end).

Definition py_lt (a b : value) : res bool :=
  res_bind (py_compare a b) (fun c =>
    Ok match c with Some Lt => true | _ => false end).

Definition py_le (a b : value) : res bool :=
  res_bind (py_compare a b) (fun c =>
    Ok match c with Some (Lt | Eq) => true | _ => false end).

Definition py_ge (a b : value) : res bool :=
  res_bind (py_compare a b) (fun c =>
    Ok match c with Some (Gt | Eq) => true | _ => false end).

Definition py_eq_num (a b : value) : res bool :=
  res_bind (py_compare a b) (fun c =>
    Ok match c with Some Eq => true | _ => false end).

(** [float(int)]: overflows instead of returning an infinity. *)
Definition float_of_int (z : Z) : res float :=
  let f := Float64.of_Z z in
  if Float64.is_inf f then Err OverflowError else Ok f.

Definition py_add (a b : value) : res value :=
  match a, b with
  | VStr s, VStr t => Ok (VStr (s +:+ t))
  | _, _ =>
      match as_number a, as_number b with
      | Some (NInt x), Some (NInt y) => Ok (VInt (x + y))
      | Some (NFloat f), Some (NFloat g) => Ok (VFloat (Float64.add f g))
      | Some (NInt x), Some (NFloat g) =>
          res_bind (float_of_int x) (fun f => Ok (VFloat (Float64.add f g)))
      | Some (NFloat f), Some (NInt y) =>
          res_bind (float_of_int y) (fun g => Ok (VFloat (Float64.add f g)))
      | _, _ => Err TypeError
      end
  end.

(** [f < 0], which never raises. *)
Definition lt0 (f : float) : bool :=
  match py_lt (VFloat f) (VInt 0) with Ok b => b | Err _ => false end.

Definition number_is_nan (n : number) : bool :=
  match n with NFloat f => Float64.is_nan f | NInt _ => false end.

Definition value_is_nan (v : value) : bool :=
  match v with VFloat f => Float64.is_nan f | _ => false end.

(** ** Strings *)

Definition lower_ascii (c : ascii) : ascii :=
  let n := nat_of_ascii c in
  if ((65 <=? n) && (n <=? 90))%nat then ascii_of_nat (n + 32) else c.

(** [str.lower] on the ASCII letters; other bytes are left alone (no
    character outside ASCII lowers to a letter of "perfect" or "random"). *)
Fixpoint lower (s : string) : string :=
  match s with
  | EmptyString => EmptyString
  | String c s' => String (lower_ascii c) (lower s')
  end.

(** [s.split(sep)] for a one-character separator: never an empty list. *)
Fixpoint split (sep : ascii) (s : string) : list string :=
  match s with
  | EmptyString => [EmptyString]
  | String c s' =>
      if Ascii.eqb c sep then EmptyString :: split sep s'
      else match split sep s' with
           | piece :: rest => String c piece :: rest
           | [] => [String c EmptyString]
           end
  end.

Definition dquote : string := String "034"%char EmptyString.
Definition newline : string := String "010"%char EmptyString.

(** [l[i]] on a list. *)
Definition py_index {A} (l : list A) (i : nat) : res A :=
  match l !! i with Some a => Ok a | None => Err IndexError end.

(** ** The namespace and the statement monad *)

Abbreviation Namespace := (gmap string value).

(** Outcome of running statements on the namespace [args]: normal
    completion with the namespace as mutated, [sys.exit(msg)], or an
    exception propagating with the namespace as it was when raised. *)
Inductive outcome (A : Type) :=
  | Returns (a : A) (args : Namespace)
  | SysExit (msg : string)
  | Raises (e : exn) (args : Namespace).
Arguments Returns {A} a args.
Arguments SysExit {A} msg.
Arguments Raises {A} e args.

Definition M (A : Type) : Type := Namespace -> outcome A.

Definition ret {A} (a : A) : M A := fun args => Returns a args.

Definition bind {A B} (m : M A) (k : A -> M B) : M B :=
  fun args =>
    match m args with
    | Returns a args' => k a args'
    | SysExit msg => SysExit msg
    | Raises e args' => Raises e args'
    end.

Declare Scope py_scope.
Delimit Scope py_scope with py.
Notation "x <- m ;; k" := (bind m (fun x => k))
  (at level 100, m at next level, right associativity) : py_scope.
Notation "m ;; k" := (bind m (fun _ => k))
  (at level 100, right associativity) : py_scope.

Definition eval {A} (r : res A) : M A :=
  fun args => match r with Ok a => Returns a args | Err e => Raises e args end.

Definition getattr (name : string) : M value :=
  fun args =>
    match args !! name with
    | Some v => Returns v args
    | None => Raises AttributeError args
    end.

Definition setattr (name : string) (v : value) : M unit :=
  fun args => Returns tt (<[name := v]> args).

Definition sys_exit {A} (msg : string) : M A := fun _ => SysExit msg.

(** [if c: body] *)
Definition when (c : bool) (body : M unit) : M unit :=
  if c then body else ret tt.

(** [try: body except (ValueError, IndexError): handler] *)
Definition try_except (body handler : M unit) : M unit :=
  fun args =>
    match body args with
    | Raises ValueError args' | Raises IndexError args' => handler args'
    | r => r
    end.

(** Statements that never call [sys.exit]. *)
Definition no_exit {A} (m : M A) : Prop := forall ns msg, m ns <> SysExit msg.

(** Methods and conversions that need a [str] receiver. *)
Definition str_lower (v : value) : res string :=
  match v with VStr s => Ok (lower s) | _ => Err AttributeError end.

Definition str_split (v : value) (sep : ascii) : res (list string) :=
  match v with VStr s => Ok (split sep s) | _ => Err AttributeError end.

Definition as_path (v : value) : res string :=
  match v with VStr s => Ok s | _ => Err TypeError end.

Fixpoint map_res {A B} (f : A -> res B) (l : list A) : res (list B) :=
  match l with
  | [] => Ok []
  | x :: l' =>
      res_bind (f x) (fun y => res_bind (map_res f l') (fun ys => Ok (y :: ys)))
  end.

(** ** The program *)

Module Badread.

Section Program.

(** What the program takes from outside [badread.py]:
    - the built-ins [float(x)] and [int(x)] on a [str] ([None] stands for
      [ValueError]) and the rendering of a number by [str.format];
    - the file system, through [pathlib.Path(p).is_file()];
    - the two constants of the [settings] module. *)
Variable py_float : string -> option float.
Variable py_int : string -> option Z.
Variable py_format : value -> string.
Variable is_file : string -> bool.
Variable MIN_MEAN_READ_LENGTH : value.
Variable MIN_MEAN_READ_IDENTITY : value.

Definition float_of_str (x : string) : res float :=
  match py_float x with Some f => Ok f | None => Err ValueError end.

Definition int_of_str (x : string) : res Z :=
  match py_int x with Some z => Ok z | None => Err ValueError end.

(** ['{}'.format(v)] *)
Definition format_value (v : value) : string :=
  match v with VStr s => s | _ => py_format v end.

(** [[float(x) for x in args.NAME.split(',')]] *)
Definition float_list (name : string) : M (list float) :=
  (s <- getattr name ;;
   pieces <- eval (str_split s ",") ;;
   eval (map_res float_of_str pieces))%py.

(** The message of lines 178-180, for the selector as formatted. *)
Definition not_a_file (selector : string) : string :=
  "Error: " +:+ selector +:+ " is not a file" +:+ newline
  +:+ "  --error_model must be " +:+ dquote +:+ "random" +:+ dquote +:+ ", "
  +:+ dquote +:+ "perfect" +:+ dquote +:+ " or a filename".

(** Lines 175-180: the error model selector. *)
Definition check_error_model : M unit :=
  (error_model <- getattr "error_model" ;;
   model <- eval (str_lower error_model) ;;
   when (negb (String.eqb model "perfect") && negb (String.eqb model "random"))
     (error_model <- getattr "error_model" ;;
      path <- eval (as_path error_model) ;;
      when (negb (is_file path))
        (error_model <- getattr "error_model" ;;
         sys_exit (not_a_file (format_value error_model)))))%py.

(** Lines 182-189: the percentages of problem reads. *)
Definition check_problem_rates : M unit :=
  (chimeras <- getattr "chimeras" ;;
   c <- eval (py_gt chimeras (VInt 50)) ;;
   when c (sys_exit "Error: --chimeras cannot be greater than 50") ;;
   junk_reads <- getattr "junk_reads" ;;
   c <- eval (py_gt junk_reads (VInt 100)) ;;
   when c (sys_exit "Error: --junk_reads cannot be greater than 100") ;;
   random_reads <- getattr "random_reads" ;;
   c <- eval (py_gt random_reads (VInt 100)) ;;
   when c (sys_exit "Error: --random_reads cannot be greater than 100") ;;
   junk_reads <- getattr "junk_reads" ;;
   random_reads <- getattr "random_reads" ;;
   total <- eval (py_add junk_reads random_reads) ;;
   c <- eval (py_gt total (VInt 100)) ;;
   when c (sys_exit
     "Error: --junk_reads and --random_reads cannot sum to more than 100"))%py.

(** Lines 191-201: the fragment length distribution. *)
Definition parse_length : M unit :=
  (length_parameters <- float_list "length" ;;
   x <- eval (py_index length_parameters 0) ;;
   setattr "mean_frag_length" (VFloat x) ;;
   x <- eval (py_index length_parameters 1) ;;
   setattr "frag_length_stdev" (VFloat x))%py.

Definition check_length : M unit :=
  (try_except parse_length
     (sys_exit "Error: could not parse --length values") ;;
   mean_frag_length <- getattr "mean_frag_length" ;;
   c <- eval (py_le mean_frag_length MIN_MEAN_READ_LENGTH) ;;
   when c (sys_exit ("Error: mean read length must be at least "
                     +:+ format_value MIN_MEAN_READ_LENGTH)) ;;
   frag_length_stdev <- getattr "frag_length_stdev" ;;
   c <- eval (py_lt frag_length_stdev (VInt 0)) ;;
   when c (sys_exit "Error: read length stdev cannot be negative"))%py.

(** Lines 203-224: the identity distribution. *)
Definition parse_identity : M unit :=
  (identity_parameters <- float_list "identity" ;;
   x <- eval (py_index identity_parameters 0) ;;
   setattr "mean_identity" (VFloat x) ;;
   x <- eval (py_index identity_parameters 1) ;;
   setattr "max_identity" (VFloat x) ;;
   x <- eval (py_index identity_parameters 2) ;;
   setattr "identity_shape" (VFloat x))%py.

Definition check_identity : M unit :=
  (try_except parse_identity
     (sys_exit "Error: could not parse --identity values") ;;
   mean_identity <- getattr "mean_identity" ;;
   c <- eval (py_gt mean_identity (VFloat (Float64.of_Z 100))) ;;
   when c (sys_exit "Error: mean read identity cannot be more than 100") ;;
   max_identity <- getattr "max_identity" ;;
   c <- eval (py_gt max_identity (VFloat (Float64.of_Z 100))) ;;
   when c (sys_exit "Error: max read identity cannot be more than 100") ;;
   mean_identity <- getattr "mean_identity" ;;
   c <- eval (py_le mean_identity MIN_MEAN_READ_IDENTITY) ;;
   when c (sys_exit ("Error: mean read identity must be at least "
                     +:+ format_value MIN_MEAN_READ_IDENTITY)) ;;
   max_identity <- getattr "max_identity" ;;
   c <- eval (py_le max_identity MIN_MEAN_READ_IDENTITY) ;;
   when c (sys_exit ("Error: max read identity must be at least "
                     +:+ format_value MIN_MEAN_READ_IDENTITY)) ;;
   mean_identity <- getattr "mean_identity" ;;
   max_identity <- getattr "max_identity" ;;
   c <- eval (py_gt mean_identity max_identity) ;;
   when c (sys_exit ("Error: mean identity (" +:+ format_value mean_identity
                     +:+ ") cannot be larger than max identity ("
                     +:+ format_value max_identity +:+ ")")) ;;
   identity_shape <- getattr "identity_shape" ;;
   c <- eval (py_le identity_shape (VFloat Float64.zero)) ;;
   when c (sys_exit "Error: read identity shape must be a positive value"))%py.

(** Lines 226-234: the glitch parameters. *)
Definition parse_glitches : M unit :=
  (glitch_parameters <- float_list "glitches" ;;
   x <- eval (py_index glitch_parameters 0) ;;
   setattr "glitch_rate" (VFloat x) ;;
   x <- eval (py_index glitch_parameters 1) ;;
   setattr "glitch_size" (VFloat x) ;;
   x <- eval (py_index glitch_parameters 2) ;;
   setattr "glitch_skip" (VFloat x))%py.

(** [args.glitch_rate < 0 or args.glitch_size < 0 or args.glitch_skip < 0] *)
Definition any_glitch_negative : M bool :=
  (glitch_rate <- getattr "glitch_rate" ;;
   c1 <- eval (py_lt glitch_rate (VInt 0)) ;;
   if c1 : bool then ret true else
     glitch_size <- getattr "glitch_size" ;;
     c2 <- eval (py_lt glitch_size (VInt 0)) ;;
     if c2 : bool then ret true else
       glitch_skip <- getattr "glitch_skip" ;;
       eval (py_lt glitch_skip (VInt 0)))%py.

Definition check_glitches : M unit :=
  (try_except parse_glitches
     (sys_exit "Error: could not parse --glitches values") ;;
   c <- any_glitch_negative ;;
   when c (sys_exit "Error: --glitches must contain non-negative values"))%py.

Definition check_simulate_args : M unit :=
  (check_error_model ;;
   check_problem_rates ;;
   check_length ;;
   check_identity ;;
   check_glitches)%py.

(** *** The sub-parsers

    An argument declared with [add_argument]: its option string, and
    what [argparse] does with it. A default that is not a string is
    stored as it is, whatever [type] says. *)
Inductive arg_type := type_str | type_int | type_float.

Inductive arg_action :=
  | store (ty : arg_type) (required : bool) (default : value)
  | store_true
  | help_action.

Record argument := add_argument { option_string : string; action : arg_action }.

(** The attribute an option is stored under: the option string without
    its leading dashes. *)
Fixpoint dest (opt : string) : string :=
  match opt with
  | String "-" s => dest s
  | _ => opt
  end.

Definition simulate_subparser : list argument :=
  [ add_argument "--reference" (store type_str true VNone);
    add_argument "--quantity" (store type_str true VNone);
    add_argument "--length" (store type_str false (VStr "10000,9000"));
    add_argument "--identity" (store type_str false (VStr "85,95,4"));
    add_argument "--error_model" (store type_str false (VStr "random"));
    add_argument "--start_adapter" (store type_str false (VStr "0.9,0.6"));
    add_argument "--end_adapter" (store type_str false (VStr "0.5,0.2"));
    add_argument "--start_adapter_seq"
      (store type_str false (VStr "AATGTACTTCGTTCAGTTACGTATTGCT"));
    add_argument "--end_adapter_seq"
      (store type_str false (VStr "GCAATACGTAACTGAACGAAGT"));
    add_argument "--junk_reads" (store type_float false (VInt 1));
    add_argument "--random_reads" (store type_float false (VInt 1));
    add_argument "--chimeras" (store type_float false (VInt 1));
    add_argument "--glitches" (store type_str false (VStr "5000,50,50"));
    add_argument "--small_plasmid_bias" store_true;
    add_argument "--help" help_action ].

Definition model_subparser : list argument :=
  [ add_argument "--reference" (store type_str true VNone);
    add_argument "--reads" (store type_str true VNone);
    add_argument "--alignment" (store type_str true VNone);
    add_argument "--k_size" (store type_int false (VInt 7));
    add_argument "--max_alignments" (store type_int false VNone);
    add_argument "--max_alt" (store type_int false (VInt 25));
    add_argument "--help" help_action ].

Definition plot_subparser : list argument :=
  [ add_argument "--reference" (store type_str true VNone);
    add_argument "--reads" (store type_str true VNone);
    add_argument "--alignment" (store type_str true VNone);
    add_argument "--window" (store type_int false (VInt 100));
    add_argument "--help" help_action ].

(** [type(raw)] for the value given on the command line. *)
Definition convert (ty : arg_type) (raw : string) : option value :=
  match ty with
  | type_str => Some (VStr raw)
  | type_int => VInt <$> py_int raw
  | type_float => VFloat <$> py_float raw
  end.

(** The command line after tokenising: the options given, each with its
    value (ignored for a flag). When an option is repeated the last
    occurrence wins.

    The model is of what [argparse] stores for declared options in their
    full spelling.  It does not decide which command lines [argparse]
    refuses: an abbreviated or undeclared option, an earlier occurrence
    whose value does not convert, and [--help], after which [argparse]
    prints and exits, are not told apart here.  The properties of the
    parsers are therefore stated of the namespace of a command line
    that is accepted. *)
Fixpoint supplied (opt : string) (argv : list (string * string))
  : option string :=
  match argv with
  | [] => None
  | (o, raw) :: argv' =>
      match supplied opt argv' with
      | Some later => Some later
      | None => if String.eqb o opt then Some raw else None
      end
  end.

(** The attribute an argument contributes to the namespace; the outer
    [None] is a usage error (a required option is missing or a value
    does not convert). *)
Definition parse_argument (a : argument) (argv : list (string * string))
  : option (option value) :=
  match action a with
  | store ty required default =>
      match supplied (option_string a) argv with
      | Some raw => Some <$> convert ty raw
      | None => if required then None else Some (Some default)
      end
  | store_true =>
      Some (Some (VBool (bool_decide (is_Some (supplied (option_string a) argv)))))
  | help_action => Some None
  end.

Fixpoint parse_args (parser : list argument) (argv : list (string * string))
  : option Namespace :=
  match parser with
  | [] => Some ∅
  | a :: parser' =>
      match parse_argument a argv, parse_args parser' argv with
      | Some (Some v), Some ns => Some (<[dest (option_string a) := v]> ns)
      | Some None, Some ns => Some ns
      | _, _ => None
      end
  end.

(** The sub-command chosen on the command line is stored under
    [subparser_name]. *)
Definition subparsers : list (string * list argument) :=
  [ ("simulate", simulate_subparser);
    ("model", model_subparser);
    ("plot", plot_subparser) ].

Definition parse_command (name : string) (argv : list (string * string))
  : option Namespace :=
  match list_find (fun p => bool_decide (p.1 = name)) subparsers with
  | Some (_, (_, parser)) =>
      (fun ns => <["subparser_name" := VStr name]> ns) <$> parse_args parser argv
  | None => None
  end.

(** *** [main], from the parsed namespace on (lines 54-65)

    The three entry points live in other modules: a call to one of them
    is recorded as an event. *)
Inductive entry_point := simulate | make_error_model | plot_window_identity.

Inductive event :=
  | Validate
  | Invoke (f : entry_point) (args : Namespace).

Inductive termination :=
  | Finished
  | Exited (msg : string)
  | Uncaught (e : exn).

Definition is_command (name : string) (v : value) : bool :=
  match v with VStr s => String.eqb s name | _ => false end.

Definition main (args : Namespace) : list event * termination :=
  match args !! "subparser_name" with
  | None => ([], Uncaught AttributeError)
  | Some name =>
      if is_command "simulate" name then
        match check_simulate_args args with
        | Returns _ args' => ([Validate; Invoke simulate args'], Finished)
        | SysExit msg => ([Validate], Exited msg)
        | Raises e _ => ([Validate], Uncaught e)
        end
      else if is_command "model" name then
        ([Invoke make_error_model args], Finished)
      else if is_command "plot" name then
        ([Invoke plot_window_identity args], Finished)
      else ([], Finished)
  end.

(** ** Vocabulary of the properties *)

(** The numbers a comma-separated parameter string stands for. *)
Definition parameters (s : string) : res (list float) :=
  map_res float_of_str (split "," s).

(** The string splits into numbers, at least [n] of them. *)
Definition parsable (n : nat) (s : string) : bool :=
  match parameters s with
  | Ok fs => (n <=? length fs)%nat
  | Err _ => false
  end.

(** The selector is one of the two built-in models or names a file. *)
Definition selector_ok (s : string) : bool :=
  String.eqb (lower s) "perfect" || String.eqb (lower s) "random" || is_file s.

(** The run ends in [sys.exit] or in an uncaught exception. *)
Definition terminates_with_error {A} (r : outcome A) : Prop :=
  match r with Returns _ _ => False | _ => True end.

(** The checks that come before a given paragraph of
    [check_simulate_args]. *)
Definition checks_before_length : M unit :=
  (check_error_model ;; check_problem_rates)%py.

Definition checks_before_identity : M unit :=
  (check_error_model ;; check_problem_rates ;; check_length)%py.

Definition checks_before_glitches : M unit :=
  (check_error_model ;; check_problem_rates ;; check_length ;;
   check_identity)%py.

(** The attributes [check_simulate_args] assigns. *)
Definition derived_fields : list string :=
  [ "mean_frag_length"; "frag_length_stdev";
    "mean_identity"; "max_identity"; "identity_shape";
    "glitch_rate"; "glitch_size"; "glitch_skip" ].

(** None of the named attributes is a NaN. *)
Definition no_nan (names : list string) (args : Namespace) : Prop :=
  forall name v, name ∈ names -> args !! name = Some v -> value_is_nan v = false.

(** The bounds on the problem rates and on the length deviation, as
    Python evaluates them on a namespace. *)
Definition rates_within_bounds (args : Namespace) : Prop :=
  exists chimeras junk_reads random_reads total frag_length_stdev,
    args !! "chimeras" = Some chimeras /\
    args !! "junk_reads" = Some junk_reads /\
    args !! "random_reads" = Some random_reads /\
    args !! "frag_length_stdev" = Some frag_length_stdev /\
    py_add junk_reads random_reads = Ok total /\
    py_le chimeras (VInt 50) = Ok true /\
    py_le junk_reads (VInt 100) = Ok true /\
    py_le random_reads (VInt 100) = Ok true /\
    py_le total (VInt 100) = Ok true /\
    py_ge frag_length_stdev (VInt 0) = Ok true.

(** One of the tests of lines 182-189 and 200 is true of the arguments. *)
Definition exceeds_a_bound (args : Namespace) : Prop :=
  (exists c, args !! "chimeras" = Some c /\ py_gt c (VInt 50) = Ok true) \/
  (exists j, args !! "junk_reads" = Some j /\ py_gt j (VInt 100) = Ok true) \/
  (exists r, args !! "random_reads" = Some r /\ py_gt r (VInt 100) = Ok true) \/
  (exists j r t, args !! "junk_reads" = Some j /\ args !! "random_reads" = Some r /\
                 py_add j r = Ok t /\ py_gt t (VInt 100) = Ok true) \/
  (exists s fs sd, args !! "length" = Some (VStr s) /\ parameters s = Ok fs /\
                   fs !! 1%nat = Some sd /\ py_lt (VFloat sd) (VInt 0) = Ok true).

(** [MIN_MEAN_READ_IDENTITY < mean_identity <= max_identity <= 100] and
    [identity_shape > 0]. *)
Definition identity_within_bounds (args : Namespace) : Prop :=
  exists mean_identity max_identity identity_shape,
    args !! "mean_identity" = Some mean_identity /\
    args !! "max_identity" = Some max_identity /\
    args !! "identity_shape" = Some identity_shape /\
    py_lt MIN_MEAN_READ_IDENTITY mean_identity = Ok true /\
    py_le mean_identity max_identity = Ok true /\
    py_le max_identity (VFloat (Float64.of_Z 100)) = Ok true /\
    py_gt identity_shape (VFloat Float64.zero) = Ok true.

(** Neither identity is above 100. *)
Definition identity_at_most_100 (args : Namespace) : Prop :=
  exists mean_identity max_identity,
    args !! "mean_identity" = Some mean_identity /\
    args !! "max_identity" = Some max_identity /\
    py_gt mean_identity (VFloat (Float64.of_Z 100)) = Ok false /\
    py_gt max_identity (VFloat (Float64.of_Z 100)) = Ok false.

(** Where each derived attribute comes from: the parameter string and
    the position in it. *)
Definition derivation : list (string * (string * nat)) :=
  [ ("mean_frag_length", ("length", 0%nat));
    ("frag_length_stdev", ("length", 1%nat));
    ("mean_identity", ("identity", 0%nat));
    ("max_identity", ("identity", 1%nat));
    ("identity_shape", ("identity", 2%nat));
    ("glitch_rate", ("glitches", 0%nat));
    ("glitch_size", ("glitches", 1%nat));
    ("glitch_skip", ("glitches", 2%nat)) ].

Definition parsed_from (args : Namespace) (source : string) (i : nat)
  : option value :=
  match args !! source with
  | Some (VStr s) =>
      match parameters s with
      | Ok fs => VFloat <$> fs !! i
      | Err _ => None
      end
  | _ => None
  end.

(** *** Acceptance, read off the source

    [accepted args args'] collects what [check_simulate_args] reads,
    the tests that must all be false, and the namespace it leaves. *)
Inductive accepted (args : Namespace) : Namespace -> Prop :=
  | Accepted selector chimeras junk_reads random_reads total
      length mean_frag_length frag_length_stdev length_rest
      identity mean_identity max_identity identity_shape identity_rest
      glitches glitch_rate glitch_size glitch_skip glitches_rest :
      args !! "error_model" = Some (VStr selector) ->
      selector_ok selector = true ->
      args !! "chimeras" = Some chimeras ->
      args !! "junk_reads" = Some junk_reads ->
      args !! "random_reads" = Some random_reads ->
      py_gt chimeras (VInt 50) = Ok false ->
      py_gt junk_reads (VInt 100) = Ok false ->
      py_gt random_reads (VInt 100) = Ok false ->
      py_add junk_reads random_reads = Ok total ->
      py_gt total (VInt 100) = Ok false ->
      args !! "length" = Some (VStr length) ->
      parameters length
        = Ok (mean_frag_length :: frag_length_stdev :: length_rest) ->
      py_le (VFloat mean_frag_length) MIN_MEAN_READ_LENGTH = Ok false ->
      py_lt (VFloat frag_length_stdev) (VInt 0) = Ok false ->
      args !! "identity" = Some (VStr identity) ->
      parameters identity
        = Ok (mean_identity :: max_identity :: identity_shape :: identity_rest) ->
      py_gt (VFloat mean_identity) (VFloat (Float64.of_Z 100)) = Ok false ->
      py_gt (VFloat max_identity) (VFloat (Float64.of_Z 100)) = Ok false ->
      py_le (VFloat mean_identity) MIN_MEAN_READ_IDENTITY = Ok false ->
      py_le (VFloat max_identity) MIN_MEAN_READ_IDENTITY = Ok false ->
      py_gt (VFloat mean_identity) (VFloat max_identity) = Ok false ->
      py_le (VFloat identity_shape) (VFloat Float64.zero) = Ok false ->
      args !! "glitches" = Some (VStr glitches) ->
      parameters glitches
        = Ok (glitch_rate :: glitch_size :: glitch_skip :: glitches_rest) ->
      py_lt (VFloat glitch_rate) (VInt 0) = Ok false ->
      py_lt (VFloat glitch_size) (VInt 0) = Ok false ->
      py_lt (VFloat glitch_skip) (VInt 0) = Ok false ->
      accepted args
        (<["glitch_skip" := VFloat glitch_skip]>
           (<["glitch_size" := VFloat glitch_size]>
              (<["glitch_rate" := VFloat glitch_rate]>
                 (<["identity_shape" := VFloat identity_shape]>
                    (<["max_identity" := VFloat max_identity]>
                       (<["mean_identity" := VFloat mean_identity]>
                          (<["frag_length_stdev" := VFloat frag_length_stdev]>
                             (<["mean_frag_length" := VFloat mean_frag_length]>
                                args)))))))).

(** *** The validation as an ordered list of rules

    A rule has a condition, evaluated on the namespace (the three
    parsing rules assign attributes while they evaluate), and the
    message [sys.exit] is given when the condition holds. *)
Record rule := { violated : M bool; message : Namespace -> string }.

Definition enforce (r : rule) : M unit :=
  (c <- violated r ;; when c (fun args => SysExit (message r args)))%py.

Fixpoint enforce_all (rs : list rule) : M unit :=
  match rs with
  | [] => ret tt
  | r :: rs' => (enforce r ;; enforce_all rs')%py
  end.

(** The condition of a [try] block whose handler exits: one of the
    caught exceptions is raised. *)
Definition fails (body : M unit) : M bool :=
  fun args =>
    match body args with
    | Returns _ args' => Returns false args'
    | Raises ValueError args' | Raises IndexError args' => Returns true args'
    | SysExit msg => SysExit msg
    | Raises e args' => Raises e args'
    end.

Definition test (name : string) (cond : value -> res bool) (msg : string)
  : rule :=
  {| violated := (v <- getattr name ;; eval (cond v))%py;
     message := fun _ => msg |}.

Definition attr (args : Namespace) (name : string) : value :=
  default VNone (args !! name).

Definition rules : list rule :=
  [ {| violated :=
         (error_model <- getattr "error_model" ;;
          model <- eval (str_lower error_model) ;;
          if negb (String.eqb model "perfect") && negb (String.eqb model "random")
          then path <- eval (as_path error_model) ;; ret (negb (is_file path))
          else ret false)%py;
       message := fun args => not_a_file (format_value (attr args "error_model")) |};
    test "chimeras" (fun v => py_gt v (VInt 50))
      "Error: --chimeras cannot be greater than 50";
    test "junk_reads" (fun v => py_gt v (VInt 100))
      "Error: --junk_reads cannot be greater than 100";
    test "random_reads" (fun v => py_gt v (VInt 100))
      "Error: --random_reads cannot be greater than 100";
    {| violated :=
         (junk_reads <- getattr "junk_reads" ;;
          random_reads <- getattr "random_reads" ;;
          total <- eval (py_add junk_reads random_reads) ;;
          eval (py_gt total (VInt 100)))%py;
       message := fun _ =>
         "Error: --junk_reads and --random_reads cannot sum to more than 100" |};
    {| violated := fails parse_length;
       message := fun _ => "Error: could not parse --length values" |};
    test "mean_frag_length" (fun v => py_le v MIN_MEAN_READ_LENGTH)
      ("Error: mean read length must be at least "
       +:+ format_value MIN_MEAN_READ_LENGTH);
    test "frag_length_stdev" (fun v => py_lt v (VInt 0))
      "Error: read length stdev cannot be negative";
    {| violated := fails parse_identity;
       message := fun _ => "Error: could not parse --identity values" |};
    test "mean_identity" (fun v => py_gt v (VFloat (Float64.of_Z 100)))
      "Error: mean read identity cannot be more than 100";
    test "max_identity" (fun v => py_gt v (VFloat (Float64.of_Z 100)))
      "Error: max read identity cannot be more than 100";
    test "mean_identity" (fun v => py_le v MIN_MEAN_READ_IDENTITY)
      ("Error: mean read identity must be at least "
       +:+ format_value MIN_MEAN_READ_IDENTITY);
    test "max_identity" (fun v => py_le v MIN_MEAN_READ_IDENTITY)
      ("Error: max read identity must be at least "
       +:+ format_value MIN_MEAN_READ_IDENTITY);
    {| violated :=
         (mean_identity <- getattr "mean_identity" ;;
          max_identity <- getattr "max_identity" ;;
          eval (py_gt mean_identity max_identity))%py;
       message := fun args =>
         "Error: mean identity (" +:+ format_value (attr args "mean_identity")
         +:+ ") cannot be larger than max identity ("
         +:+ format_value (attr args "max_identity") +:+ ")" |};
    test "identity_shape" (fun v => py_le v (VFloat Float64.zero))
      "Error: read identity shape must be a positive value";
    {| violated := fails parse_glitches;
       message := fun _ => "Error: could not parse --glitches values" |};
    {| violated := any_glitch_negative;
       message := fun _ => "Error: --glitches must contain non-negative values" |} ].

End Program.

End Badread.

Import Badread.

(** ** The built-ins, concretely

    A model of CPython's [float(str)], [int(str)] and [repr(float)] on
    ASCII input, used to run the program on concrete command lines. The
    grammar is the one of the language reference: optional sign, then
    [inf], [infinity] or [nan] in any case, or digits with optional
    underscores between them, a fraction and an exponent; surrounding
    white space is ignored. Decimal values are rounded to the nearest
    binary64 number, ties to even. *)

Module CPython.

(** The white space that [float] and [int] strip from an ASCII string:
    the space and the controls 9 to 13. *)
Definition is_space (c : ascii) : bool :=
  let n := nat_of_ascii c in
  ((n =? 32) || ((9 <=? n) && (n <=? 13)))%nat.

Fixpoint lstrip (l : list ascii) : list ascii :=
  match l with
  | c :: l' => if is_space c then lstrip l' else l
  | [] => []
  end.

Definition strip (l : list ascii) : list ascii := rev (lstrip (rev (lstrip l))).

Definition digit (c : ascii) : option Z :=
  let n := nat_of_ascii c in
  if ((48 <=? n) && (n <=? 57))%nat then Some (Z.of_nat (n - 48)) else None.

Fixpoint digits_tail (acc : Z) (n : nat) (l : list ascii) : Z * nat * list ascii :=
  match l with
  | c :: l' =>
      match digit c with
      | Some d => digits_tail (10 * acc + d) (S n) l'
      | None =>
          if Ascii.eqb c "_" then
            match l' with
            | c' :: l'' =>
                match digit c' with
                | Some d => digits_tail (10 * acc + d) (S n) l''
                | None => (acc, n, l)
                end
            | [] => (acc, n, l)
            end
          else (acc, n, l)
      end
  | [] => (acc, n, l)
  end.

Definition digitpart (l : list ascii) : option (Z * nat * list ascii) :=
  match l with
  | c :: l' => (fun d => digits_tail d 1 l') <$> digit c
  | [] => None
  end.

Definition sign (l : list ascii) : bool * list ascii :=
  match l with
  | "-"%char :: l' => (true, l')
  | "+"%char :: l' => (false, l')
  | _ => (false, l)
  end.

(** [number]: mantissa and decimal exponent *)
Definition number (l : list ascii) : option (Z * Z * list ascii) :=
  match digitpart l with
  | Some (i, _, "."%char :: r) =>
      match digitpart r with
      | Some (f, n, r') => Some (i * 10 ^ Z.of_nat n + f, - Z.of_nat n, r')
      | None => Some (i, 0, r)
      end
  | Some (i, _, r) => Some (i, 0, r)
  | None =>
      match l with
      | "."%char :: r =>
          (fun '(f, n, r') => (f, - Z.of_nat n, r')) <$> digitpart r
      | _ => None
      end
  end.

Definition exponent (l : list ascii) : option Z :=
  match l with
  | [] => Some 0
  | c :: l' =>
      if Ascii.eqb c "e" || Ascii.eqb c "E" then
        let '(neg, l'') := sign l' in
        match digitpart l'' with
        | Some (x, _, []) => Some (cond_Zopp neg x)
        | _ => None
        end
      else None
  end.

Definition of_decimal (neg : bool) (m e : Z) : float :=
  if m =? 0 then S754_zero neg
  else if 0 <=? e then binary_normalize Float64.prec Float64.emax (cond_Zopp neg (m * 10 ^ e)) 0 false
  else
    let '(q, e', loc) := SFdiv_core_binary Float64.prec Float64.emax m 0 (10 ^ (- e)) 0 in
    binary_round_aux Float64.prec Float64.emax neg q e' loc.

(** [float(s)] *)
Definition float_of_string (s : string) : option float :=
  let '(neg, l) := sign (strip (list_ascii_of_string s)) in
  let w := lower (string_of_list_ascii l) in
  if String.eqb w "inf" || String.eqb w "infinity" then Some (S754_infinity neg)
  else if String.eqb w "nan" then Some S754_nan
  else
    match number l with
    | Some (m, e, r) => (fun x => of_decimal neg m (e + x)) <$> exponent r
    | None => None
    end.

(** [int(s)] *)
Definition int_of_string (s : string) : option Z :=
  let '(neg, l) := sign (strip (list_ascii_of_string s)) in
  match digitpart l with
  | Some (x, _, []) => Some (cond_Zopp neg x)
  | _ => None
  end.

Definition float_eqb (x y : float) : bool :=
  match x, y with
  | S754_zero a, S754_zero b => Bool.eqb a b
  | S754_infinity a, S754_infinity b => Bool.eqb a b
  | S754_nan, S754_nan => true
  | S754_finite a m e, S754_finite b n f => Bool.eqb a b && Pos.eqb m n && (e =? f)
  | _, _ => false
  end.

(** Position of the decimal point of [N/D > 0]: the least [k] from [k0]
    on with [N/D < 10^k]. *)
Fixpoint decpt (fuel : nat) (k N D : Z) : Z :=
  match fuel with
  | O => k
  | S fuel' =>
      if (if 0 <=? k then N <? D * 10 ^ k else N * 10 ^ (- k) <? D) then k
      else decpt fuel' (k + 1) N D
  end.

(** The shortest digit string that reads back as [x = N/D], nearest to
    [x] among those of that length. *)
Fixpoint shortest (fuel : nat) (n : Z) (x : float) (k N D : Z) : Z * Z :=
  let s := n - k in
  let num := if 0 <=? s then N * 10 ^ s else N in
  let den := if 0 <=? s then D else D * 10 ^ (- s) in
  let lo := num / den in
  let hi := lo + 1 in
  let ok c := float_eqb (of_decimal false c (k - n)) x in
  let nearer_hi :=
    match (2 * num) ?= ((2 * lo + 1) * den) with
    | Gt => true | Lt => false | Eq => Z.odd lo
    end in
  match fuel with
  | O => (lo, k - n)
  | S fuel' =>
      if ok lo && ok hi then (if nearer_hi then hi else lo, k - n)
      else if ok lo then (lo, k - n)
      else if ok hi then (hi, k - n)
      else shortest fuel' (n + 1) x k N D
  end.

Fixpoint strip_zeros (fuel : nat) (c e : Z) : Z * Z :=
  match fuel with
  | O => (c, e)
  | S fuel' => if (c mod 10 =? 0) && negb (c =? 0) then strip_zeros fuel' (c / 10) (e + 1) else (c, e)
  end.

Fixpoint zeros (n : nat) : string :=
  match n with O => "" | S n' => "0" +:+ zeros n' end.

Definition two_digits (z : Z) : string :=
  if z <? 10 then "0" +:+ pretty z else pretty z.

(** [repr] of a positive finite float with digits [c] and value
    [c * 10^e]. *)
Definition repr_digits (c e : Z) : string :=
  let ds := pretty c in
  let n := Z.of_nat (String.length ds) in
  let point := n + e in
  if (point <=? -4) || (16 <? point) then
    let mant :=
      match ds with
      | String d EmptyString => ds
      | String d rest => String d ("." +:+ rest)
      | EmptyString => ds
      end in
    let x := point - 1 in
    mant +:+ "e" +:+ (if x <? 0 then "-" else "+") +:+ two_digits (Z.abs x)
  else if point <=? 0 then "0." +:+ zeros (Z.to_nat (- point)) +:+ ds
  else if n <=? point then ds +:+ zeros (Z.to_nat (point - n)) +:+ ".0"
  else substring 0 (Z.to_nat point) ds +:+ "." +:+
       substring (Z.to_nat point) (Z.to_nat (n - point)) ds.

(** [repr(x)], which is also [str(x)] and ['{}'.format(x)] *)
Definition repr_float (x : float) : string :=
  match x with
  | S754_nan => "nan"
  | S754_infinity s => if s then "-inf" else "inf"
  | S754_zero s => if s then "-0.0" else "0.0"
  | S754_finite s m e =>
      let N := if 0 <=? e then Zpos m * 2 ^ e else Zpos m in
      let D := if 0 <=? e then 1 else 2 ^ (- e) in
      let k0 := ((Z.log2 N - Z.log2 D - 1) * 30103) / 100000 - 1 in
      let k := decpt 8 k0 N D in
      let '(c, e10) := shortest 17 1 (S754_finite false m e) k N D in
      let '(c, e10) := strip_zeros 20 c e10 in
      (if s then "-" else "") +:+ repr_digits c e10
  end.
Definition format (v : value) : string :=
  match v with
  | VNone => "None"
  | VBool b => if b then "True" else "False"
  | VInt z => pretty z
  | VFloat f => repr_float f
  | VStr s => s
  end.

End CPython.

(** ** A concrete run

    The program with CPython's built-ins, a file system without model
    files and the constants of Badread's [settings] module
    ([MIN_MEAN_READ_LENGTH = 100], [MIN_MEAN_READ_IDENTITY = 50]). *)

Definition no_files (path : string) : bool := false.

Definition command_line (command : string) (argv : list (string * string))
  : Namespace :=
  default ∅ (parse_command CPython.float_of_string CPython.int_of_string
               command argv).

Definition run_check (args : Namespace) : outcome unit :=
  check_simulate_args CPython.float_of_string CPython.format no_files
    (VInt 100) (VInt 50) args.

Definition required : list (string * string) :=
  [ ("--reference", "ref.fasta"); ("--quantity", "50x") ].

(** The namespace of [badread simulate] with the required options and
    the given ones. *)
Definition simulate_args (options : list (string * string)) : Namespace :=
  command_line "simulate" (required ++ options).

(** The namespace [check_simulate_args] leaves when it returns. *)
Definition validated (args : Namespace) : Namespace :=
  match run_check args with Returns _ args' => args' | _ => args end.

(** ** Further vocabulary *)

(** The attributes of the parser that [check_simulate_args] reads. *)
Definition inspected : list string :=
  [ "error_model"; "chimeras"; "junk_reads"; "random_reads";
    "length"; "identity"; "glitches" ].

(** The options of those attributes. *)
Definition inspected_options : list string :=
  [ "--error_model"; "--chimeras"; "--junk_reads"; "--random_reads";
    "--length"; "--identity"; "--glitches" ].

(** The attributes of the namespace of [badread simulate]: one for each
    argument but [--help], whose default is [argparse.SUPPRESS], and the
    name of the command. *)
Definition simulate_attributes : list string :=
  [ "subparser_name"; "reference"; "quantity"; "length"; "identity";
    "error_model"; "start_adapter"; "end_adapter"; "start_adapter_seq";
    "end_adapter_seq"; "junk_reads"; "random_reads"; "chimeras"; "glitches";
    "small_plasmid_bias" ].

Definition outcome_map {A} (f : Namespace -> Namespace) (r : outcome A)
  : outcome A :=
  match r with
  | Returns a args => Returns a (f args)
  | SysExit msg => SysExit msg
  | Raises e args => Raises e (f args)
  end.

(** A statement that goes the same way whatever attribute [name] holds,
    and leaves that attribute alone. *)
Definition ignores {A} (name : string) (m : M A) : Prop :=
  forall v args, m (<[name := v]> args) = outcome_map (insert name v) (m args).

Definition is_number (v : value) : bool :=
  match as_number v with Some _ => true | None => false end.

(** The numerals in the defaults of [--length], [--identity] and
    [--glitches], each with its value. *)
Definition default_numerals : list (string * Z) :=
  [ ("10000", 10000); ("9000", 9000); ("85", 85); ("95", 95); ("4", 4);
    ("5000", 5000); ("50", 50) ].

(** ** The overview of the commands (lines 32-39 of [main])

    [subparsers.choices] maps each command to its parser, in the order
    the parsers were added; the loop uses the description of a parser
    only. *)
Fixpoint spaces (n : nat) : string :=
  match n with
  | O => EmptyString
  | S n' => String " " (spaces n')
  end.

(** [max(len(c) for c in choices)]: [max] of nothing is a
    [ValueError]. *)
Definition longest_choice_name (choices : list (string * string)) : res nat :=
  match choices with
  | [] => Err ValueError
  | _ => Ok (max_list ((fun p => String.length p.1) <$> choices))
  end.

(** [d[0].lower() + d[1:]] *)
Definition uncapitalised (d : string) : res string :=
  match d with
  | EmptyString => Err IndexError
  | String c d' => Ok (lower (String c EmptyString) +:+ d')
  end.

(** The body of the [for] loop, on the text built so far. *)
Fixpoint add_choices (longest_choice_name : nat)
    (choices : list (string * string)) (help : string) : res string :=
  match choices with
  | [] => Ok help
  | (choice, d) :: choices' =>
      let padding := spaces (longest_choice_name - String.length choice) in
      let help := help +:+ (choice +:+ ": " +:+ padding) in
      res_bind (uncapitalised d) (fun d' =>
        let help := help +:+ d' in
        let help := help +:+ newline in
        add_choices longest_choice_name choices' help)
  end.

Definition subparsers_help (choices : list (string * string)) : res string :=
  res_bind (longest_choice_name choices) (fun longest =>
    add_choices longest choices "R|").

Section Overview.

(** [bold] of the [misc] module. *)
Variable bold : string -> string.

(** The three commands with their descriptions, as lines 28-30 add
    them. *)
Definition choices : list (string * string) :=
  [ ("simulate",
     bold ("Badread: a long read simulator " +:+
           "that can imitate many types of " +:+
           "read problems"));
    ("model", "Generate error model");
    ("plot", "Plot read window identities") ].

End Overview.

(** A value a percentage argument can hold without the sum of two of
    them raising: a [float], or an [int] that [float] can hold. *)
Definition percentage (v : value) : bool :=
  match v with
  | VFloat _ => true
  | VInt z => match float_of_int z with Ok _ => true | Err _ => false end
  | _ => false
  end.

(** The run returns or ends in [sys.exit]: no exception leaves it. *)
Definition returns_or_exits {A} (r : outcome A) : Prop :=
  match r with Raises _ _ => False | _ => True end.

(** * Properties *)

#[local] Set Warnings "-clear-no-such-hyp".

(** ** Facts on binary64 arithmetic *)

Lemma compare_antisym f g :
  Float64.compare g f = option_map CompOpp (Float64.compare f g).
Proof.
  unfold Float64.compare.
  destruct f as [[]|[]| |[] m e], g as [[]|[]| |[] n e']; simpl; try reflexivity;
    rewrite (Z.compare_antisym e e'); destruct (e ?= e'); simpl; try reflexivity;
    rewrite (Pos.compare_cont_antisym m n Eq); simpl;
    destruct (Pos.compare_cont Eq m n); reflexivity.
Qed.

Lemma compare_None f g :
  Float64.compare f g = None -> Float64.is_nan f = true \/ Float64.is_nan g = true.
Proof.
  destruct f as [[]|[]| |[] m e], g as [[]|[]| |[] n e']; simpl; auto; discriminate.
Qed.

Lemma compare_Z_None z f : Float64.compare_Z z f = None -> Float64.is_nan f = true.
Proof. destruct f; simpl; auto; discriminate. Qed.

Lemma number_compare_antisym a b :
  number_compare b a = option_map CompOpp (number_compare a b).
Proof.
  destruct a as [x|f], b as [y|g]; simpl.
  - by rewrite (Z.compare_antisym x y).
  - reflexivity.
  - destruct (Float64.compare_Z y f) as [[]|]; reflexivity.
  - apply compare_antisym.
Qed.


Lemma number_compare_None a b :
  number_compare a b = None -> number_is_nan a = true \/ number_is_nan b = true.
Proof.
  destruct a as [x|f], b as [y|g]; simpl; try discriminate.
  - intros H; right; by apply compare_Z_None in H.
  - destruct (Float64.compare_Z y f) eqn:E; [discriminate|].
    intros _; left; by apply compare_Z_None in E.
  - apply compare_None.
Qed.

(** Rounding never produces a NaN. *)
Lemma shr_1_nonneg mrs : 0 <= shr_m mrs -> 0 <= shr_m (shr_1 mrs).
Proof. destruct mrs as [[|[]|[]] r s]; simpl; lia. Qed.

Lemma iter_shr_1_nonneg p mrs : 0 <= shr_m mrs -> 0 <= shr_m (SpecFloat.iter_pos shr_1 p mrs).
Proof.
  revert mrs; induction p as [p IH|p IH|]; intros mrs H; simpl.
  - apply IH, IH, shr_1_nonneg, H.
  - apply IH, IH, H.
  - apply shr_1_nonneg, H.
Qed.

Lemma shr_fexp_nonneg pr em m e l :
  0 <= m -> 0 <= shr_m (fst (shr_fexp pr em m e l)).
Proof.
  intros H. unfold shr_fexp, shr.
  assert (0 <= shr_m (shr_record_of_loc m l)) by (destruct l as [|[]]; exact H).
  destruct (fexp pr em (Zdigits2 m + e) - e); simpl; auto using iter_shr_1_nonneg.
Qed.

Lemma round_nearest_even_nonneg m l : 0 <= m -> 0 <= round_nearest_even m l.
Proof.
  intros H. destruct l as [|[]]; simpl; try lia. destruct (Z.even m); lia.
Qed.

Lemma binary_round_aux_not_nan pr em s m e l :
  0 <= m -> Float64.is_nan (binary_round_aux pr em s m e l) = false.
Proof.
  intros H. unfold binary_round_aux.
  pose proof (shr_fexp_nonneg pr em m e l H) as H1.
  destruct (shr_fexp pr em m e l) as [mrs' e1]; simpl in H1.
  pose proof (shr_fexp_nonneg pr em _ e1 loc_Exact
                (round_nearest_even_nonneg _ (loc_of_shr_record mrs') H1)) as H2.
  destruct (shr_fexp pr em _ e1 loc_Exact) as [mrs'' e2]; simpl in H2.
  destruct (shr_m mrs''); [reflexivity| |lia].
  by destruct (e2 <=? em - pr).
Qed.

Lemma binary_round_not_nan pr em s m e :
  Float64.is_nan (binary_round pr em s m e) = false.
Proof.
  unfold binary_round. destruct (shl_align _ _ _) as [mz ez].
  apply binary_round_aux_not_nan. lia.
Qed.

Lemma binary_normalize_not_nan pr em m e s :
  Float64.is_nan (binary_normalize pr em m e s) = false.
Proof. destruct m; simpl; auto using binary_round_not_nan. Qed.

Lemma of_Z_not_nan z : Float64.is_nan (Float64.of_Z z) = false.
Proof. apply binary_normalize_not_nan. Qed.

(** A sum is a NaN only if an operand is, or for infinities of opposite
    signs. *)
Lemma add_not_nan f g :
  Float64.is_nan f = false -> Float64.is_nan g = false ->
  f <> S754_infinity false -> g <> S754_infinity false ->
  Float64.is_nan (Float64.add f g) = false.
Proof.
  intros Hf Hg Hfi Hgi.
  destruct f as [[]|[]| |sf m e], g as [[]|[]| |sg n e']; simpl in *;
    try reflexivity; try discriminate; try congruence.
  apply binary_normalize_not_nan.
Qed.

(** ** Facts on the comparison of values *)

Lemma as_number_nan v n : as_number v = Some n -> number_is_nan n = value_is_nan v.
Proof. destruct v; simpl; intros [= <-]; reflexivity. Qed.

(** [compared a b c]: both are numbers and compare as [c]. *)
Lemma py_compare_total a b :
  value_is_nan a = false -> value_is_nan b = false ->
  forall c, py_compare a b = Ok c -> exists o, c = Some o.
Proof.
  intros Ha Hb c. unfold py_compare.
  destruct (as_number a) as [x|] eqn:Ea; [|discriminate].
  destruct (as_number b) as [y|] eqn:Eb; [|discriminate].
  intros [= <-]. destruct (number_compare x y) as [o|] eqn:E; [eauto|].
  apply number_compare_None in E.
  rewrite (as_number_nan _ _ Ea), (as_number_nan _ _ Eb) in E.
  destruct E; congruence.
Qed.

Lemma py_compare_antisym a b c :
  py_compare a b = Ok c -> py_compare b a = Ok (option_map CompOpp c).
Proof.
  unfold py_compare.
  destruct (as_number a) as [x|]; [|discriminate].
  destruct (as_number b) as [y|]; [|discriminate].
  intros [= <-]. by rewrite (number_compare_antisym x y).
Qed.

Ltac compare_cases a b :=
  let c := fresh "c" in let E := fresh "E" in
  destruct (py_compare a b) as [c|] eqn:E; simpl in *; [|discriminate].

Lemma py_gt_false_le a b :
  py_gt a b = Ok false -> value_is_nan a = false -> value_is_nan b = false ->
  py_le a b = Ok true.
Proof.
  unfold py_gt, py_le. intros H Ha Hb. compare_cases a b.
  destruct (py_compare_total a b Ha Hb _ E) as [[] ->]; simpl in *; congruence.
Qed.

Lemma py_le_false_gt a b :
  py_le a b = Ok false -> value_is_nan a = false -> value_is_nan b = false ->
  py_gt a b = Ok true.
Proof.
  unfold py_gt, py_le. intros H Ha Hb. compare_cases a b.
  destruct (py_compare_total a b Ha Hb _ E) as [[] ->]; simpl in *; congruence.
Qed.

Lemma py_le_false_lt a b :
  py_le a b = Ok false -> value_is_nan a = false -> value_is_nan b = false ->
  py_lt b a = Ok true.
Proof.
  unfold py_lt, py_le. intros H Ha Hb. compare_cases a b.
  rewrite (py_compare_antisym _ _ _ E). simpl.
  destruct (py_compare_total a b Ha Hb _ E) as [[] ->]; simpl in *; congruence.
Qed.

Lemma py_lt_false_ge a b :
  py_lt a b = Ok false -> value_is_nan a = false -> value_is_nan b = false ->
  py_ge a b = Ok true.
Proof.
  unfold py_lt, py_ge. intros H Ha Hb. compare_cases a b.
  destruct (py_compare_total a b Ha Hb _ E) as [[] ->]; simpl in *; congruence.
Qed.

Lemma py_ge_not_lt a b : py_ge a b = Ok true -> py_lt a b = Ok false.
Proof.
  unfold py_lt, py_ge. intros H. compare_cases a b.
  destruct c as [[]|]; simpl in *; congruence.
Qed.

Lemma py_eq_not_lt a b : py_eq_num a b = Ok true -> py_lt a b = Ok false.
Proof.
  unfold py_lt, py_eq_num. intros H. compare_cases a b.
  destruct c as [[]|]; simpl in *; congruence.
Qed.

Lemma py_eq_le a b : py_eq_num a b = Ok true -> py_le a b = Ok true.
Proof.
  unfold py_le, py_eq_num. intros H. compare_cases a b.
  destruct c as [[]|]; simpl in *; congruence.
Qed.

Lemma py_gt_not_le a b : py_gt a b = Ok true -> py_le a b = Ok false.
Proof.
  unfold py_le, py_gt. intros H. compare_cases a b.
  destruct c as [[]|]; simpl in *; congruence.
Qed.

(** A float that is not above an integer is not plus infinity. *)
Lemma not_gt_not_pinf v z n :
  py_gt v (VInt z) = Ok false -> as_number v = Some n ->
  n <> NFloat (S754_infinity false).
Proof.
  unfold py_gt, py_compare. intros H E ->. rewrite E in H. discriminate.
Qed.

Lemma float_of_int_finite z f :
  float_of_int z = Ok f ->
  Float64.is_nan f = false /\ f <> S754_infinity false.
Proof.
  unfold float_of_int. destruct (Float64.is_inf (Float64.of_Z z)) eqn:E; [discriminate|].
  intros [= <-]. split; [apply of_Z_not_nan|]. intros H. by rewrite H in E.
Qed.

(** The sum the program forms is not a NaN when neither rate is a NaN
    and neither is above 100. *)
Lemma py_add_not_nan j r t :
  py_add j r = Ok t ->
  value_is_nan j = false -> value_is_nan r = false ->
  py_gt j (VInt 100) = Ok false -> py_gt r (VInt 100) = Ok false ->
  value_is_nan t = false.
Proof.
  intros Ht Hj Hr Gj Gr.
  assert (forall f, as_number j = Some (NFloat f) ->
            Float64.is_nan f = false /\ f <> S754_infinity false) as Fj.
  { intros f E. split; [pose proof (as_number_nan _ _ E) as N; simpl in N; congruence|].
    intros ->. exact (not_gt_not_pinf _ _ _ Gj E eq_refl). }
  assert (forall f, as_number r = Some (NFloat f) ->
            Float64.is_nan f = false /\ f <> S754_infinity false) as Fr.
  { intros f E. split; [pose proof (as_number_nan _ _ E) as N; simpl in N; congruence|].
    intros ->. exact (not_gt_not_pinf _ _ _ Gr E eq_refl). }
  unfold py_add in Ht.
  destruct j as [|bj|zj|fj|sj], r as [|br|zr|fr|sr]; simpl in Ht;
    try discriminate; try (injection Ht as <-; reflexivity);
    try (destruct (Fj _ eq_refl)); try (destruct (Fr _ eq_refl)).
  all: try (injection Ht as <-; simpl; by apply add_not_nan).
  all: match type of Ht with
       | res_bind (float_of_int ?z) _ = _ =>
           destruct (float_of_int z) as [g|] eqn:Eg; [|discriminate];
           destruct (float_of_int_finite _ _ Eg); injection Ht as <-; simpl;
           by apply add_not_nan
       end.
Qed.

(** ** The paragraphs of [check_simulate_args], one by one *)

Ltac run :=
  cbv [bind getattr setattr eval ret when sys_exit try_except fails enforce test
       violated message].

Ltac lookups :=
  repeat first
    [ rewrite lookup_insert_eq
    | rewrite lookup_insert_ne by done ].

Section Properties.

Variable py_float : string -> option float.
Variable py_format : value -> string.
Variable is_file : string -> bool.
Variable MINL MINI : value.

Local Abbreviation parameters := (parameters py_float).
Local Abbreviation parsable := (parsable py_float).
Local Abbreviation parse_length := (parse_length py_float).
Local Abbreviation check_length := (check_length py_float py_format MINL).
Local Abbreviation parse_identity := (parse_identity py_float).
Local Abbreviation check_identity := (check_identity py_float py_format MINI).
Local Abbreviation parse_glitches := (parse_glitches py_float).
Local Abbreviation check_glitches := (check_glitches py_float).
Local Abbreviation check_error_model := (check_error_model py_format is_file).
Local Abbreviation check_simulate_args :=
  (check_simulate_args py_float py_format is_file MINL MINI).
Local Abbreviation checks_before_length := (checks_before_length py_format is_file).
Local Abbreviation checks_before_identity :=
  (checks_before_identity py_float py_format is_file MINL).
Local Abbreviation checks_before_glitches :=
  (checks_before_glitches py_float py_format is_file MINL MINI).
Local Abbreviation selector_ok := (selector_ok is_file).
Local Abbreviation rules := (rules py_float py_format is_file MINL MINI).
Local Abbreviation accepted := (accepted py_float is_file MINL MINI).
Local Abbreviation identity_within_bounds := (identity_within_bounds MINI).
Local Abbreviation exceeds_a_bound := (exceeds_a_bound py_float).
Local Abbreviation parsed_from := (parsed_from py_float).
Local Abbreviation main := (main py_float py_format is_file MINL MINI).

Lemma map_res_float_Err l e :
  map_res (float_of_str py_float) l = Err e -> e = ValueError.
Proof.
  induction l as [|x l IH]; simpl; [discriminate|].
  unfold float_of_str at 1. destruct (py_float x); simpl; [|congruence].
  destruct (map_res _ l); simpl; [discriminate|]. intros [= <-]. by apply IH.
Qed.

Lemma float_list_eq name (ns : Namespace) s :
  ns !! name = Some (VStr s) ->
  float_list py_float name ns =
    match parameters s with Ok fs => Returns fs ns | Err _ => Raises ValueError ns end.
Proof.
  intros H. unfold float_list, Badread.parameters. run. rewrite H. simpl.
  destruct (map_res _ _) eqn:E; [done|]. by apply map_res_float_Err in E as ->.
Qed.

Lemma try_parse_length_eq (ns : Namespace) s msg :
  ns !! "length" = Some (VStr s) ->
  try_except parse_length (sys_exit msg) ns =
    match parameters s with
    | Ok (x :: y :: _) =>
        Returns tt (<["frag_length_stdev" := VFloat y]>
                      (<["mean_frag_length" := VFloat x]> ns))
    | _ => SysExit msg
    end.
Proof.
  intros H. unfold try_except, Badread.parse_length, bind at 1.
  rewrite (float_list_eq _ _ _ H).
  destruct (parameters s) as [[|x [|y fs]]|]; reflexivity.
Qed.

Lemma check_length_eq (ns : Namespace) s :
  ns !! "length" = Some (VStr s) ->
  check_length ns =
    match parameters s with
    | Ok (x :: y :: _) =>
        let ns' := <["frag_length_stdev" := VFloat y]>
                     (<["mean_frag_length" := VFloat x]> ns) in
        match py_le (VFloat x) MINL with
        | Ok true => SysExit ("Error: mean read length must be at least "
                              +:+ format_value py_format MINL)
        | Ok false =>
            match py_lt (VFloat y) (VInt 0) with
            | Ok true => SysExit "Error: read length stdev cannot be negative"
            | Ok false => Returns tt ns'
            | Err e => Raises e ns'
            end
        | Err e => Raises e ns'
        end
    | _ => SysExit "Error: could not parse --length values"
    end.
Proof.
  intros H. unfold Badread.check_length, bind at 1.
  rewrite (try_parse_length_eq _ _ _ H).
  destruct (parameters s) as [[|x [|y fs]]|]; try reflexivity.
  run. lookups.
  destruct (py_le (VFloat x) MINL) as [[]|]; try reflexivity.
  lookups.
  destruct (py_lt (VFloat y) (VInt 0)) as [[]|]; reflexivity.
Qed.


Lemma check_error_model_eq (ns : Namespace) s :
  ns !! "error_model" = Some (VStr s) ->
  check_error_model ns =
    if selector_ok s then Returns tt ns else SysExit (not_a_file s).
Proof.
  intros H. unfold Badread.check_error_model, Badread.selector_ok. run. rewrite H. simpl.
  destruct (String.eqb (lower s) "perfect"), (String.eqb (lower s) "random");
    simpl; try reflexivity.
  rewrite H. simpl. destruct (is_file s); simpl; [reflexivity|].
  by rewrite H.
Qed.

Lemma check_problem_rates_eq (ns : Namespace) c j r :
  ns !! "chimeras" = Some c -> ns !! "junk_reads" = Some j ->
  ns !! "random_reads" = Some r ->
  check_problem_rates ns =
    match py_gt c (VInt 50) with
    | Ok true => SysExit "Error: --chimeras cannot be greater than 50"
    | Ok false =>
        match py_gt j (VInt 100) with
        | Ok true => SysExit "Error: --junk_reads cannot be greater than 100"
        | Ok false =>
            match py_gt r (VInt 100) with
            | Ok true => SysExit "Error: --random_reads cannot be greater than 100"
            | Ok false =>
                match py_add j r with
                | Ok t =>
                    match py_gt t (VInt 100) with
                    | Ok true => SysExit
                        "Error: --junk_reads and --random_reads cannot sum to more than 100"
                    | Ok false => Returns tt ns
                    | Err e => Raises e ns
                    end
                | Err e => Raises e ns
                end
            | Err e => Raises e ns
            end
        | Err e => Raises e ns
        end
    | Err e => Raises e ns
    end.
Proof.
  intros Hc Hj Hr. unfold check_problem_rates. run. rewrite Hc.
  destruct (py_gt c (VInt 50)) as [[]|]; try reflexivity. rewrite Hj.
  destruct (py_gt j (VInt 100)) as [[]|]; try reflexivity. rewrite Hr.
  destruct (py_gt r (VInt 100)) as [[]|]; try reflexivity.
  cbv beta iota. rewrite Hj. cbv beta iota. rewrite Hr.
  destruct (py_add j r) as [t|]; try reflexivity.
  destruct (py_gt t (VInt 100)) as [[]|]; reflexivity.
Qed.

Lemma try_parse_identity_eq (ns : Namespace) s msg :
  ns !! "identity" = Some (VStr s) ->
  try_except parse_identity (sys_exit msg) ns =
    match parameters s with
    | Ok (x :: y :: z :: _) =>
        Returns tt (<["identity_shape" := VFloat z]>
                      (<["max_identity" := VFloat y]>
                         (<["mean_identity" := VFloat x]> ns)))
    | _ => SysExit msg
    end.
Proof.
  intros H. unfold try_except, Badread.parse_identity, bind at 1.
  rewrite (float_list_eq _ _ _ H).
  destruct (parameters s) as [[|x [|y [|z fs]]]|]; reflexivity.
Qed.

Lemma check_identity_eq (ns : Namespace) s :
  ns !! "identity" = Some (VStr s) ->
  check_identity ns =
    match parameters s with
    | Ok (x :: y :: z :: _) =>
        let ns' := <["identity_shape" := VFloat z]>
                     (<["max_identity" := VFloat y]>
                        (<["mean_identity" := VFloat x]> ns)) in
        match py_gt (VFloat x) (VFloat (Float64.of_Z 100)) with
        | Ok true => SysExit "Error: mean read identity cannot be more than 100"
        | Ok false =>
        match py_gt (VFloat y) (VFloat (Float64.of_Z 100)) with
        | Ok true => SysExit "Error: max read identity cannot be more than 100"
        | Ok false =>
        match py_le (VFloat x) MINI with
        | Ok true => SysExit ("Error: mean read identity must be at least "
                              +:+ format_value py_format MINI)
        | Ok false =>
        match py_le (VFloat y) MINI with
        | Ok true => SysExit ("Error: max read identity must be at least "
                              +:+ format_value py_format MINI)
        | Ok false =>
        match py_gt (VFloat x) (VFloat y) with
        | Ok true => SysExit ("Error: mean identity ("
                              +:+ format_value py_format (VFloat x)
                              +:+ ") cannot be larger than max identity ("
                              +:+ format_value py_format (VFloat y) +:+ ")")
        | Ok false =>
        match py_le (VFloat z) (VFloat Float64.zero) with
        | Ok true => SysExit "Error: read identity shape must be a positive value"
        | Ok false => Returns tt ns'
        | Err e => Raises e ns'
        end
        | Err e => Raises e ns'
        end
        | Err e => Raises e ns'
        end
        | Err e => Raises e ns'
        end
        | Err e => Raises e ns'
        end
        | Err e => Raises e ns'
        end
    | _ => SysExit "Error: could not parse --identity values"
    end.
Proof.
  intros H. unfold Badread.check_identity, bind at 1.
  rewrite (try_parse_identity_eq _ _ _ H).
  destruct (parameters s) as [[|x [|y [|z fs]]]|]; try reflexivity.
  run. lookups.
  destruct (py_gt (VFloat x) _) as [[]|]; try reflexivity. lookups.
  destruct (py_gt (VFloat y) _) as [[]|]; try reflexivity. lookups.
  destruct (py_le (VFloat x) MINI) as [[]|]; try reflexivity. lookups.
  destruct (py_le (VFloat y) MINI) as [[]|]; try reflexivity. lookups.
  destruct (py_gt (VFloat x) (VFloat y)) as [[]|]; try reflexivity. lookups.
  destruct (py_le (VFloat z) _) as [[]|]; reflexivity.
Qed.

Lemma try_parse_glitches_eq (ns : Namespace) s msg :
  ns !! "glitches" = Some (VStr s) ->
  try_except parse_glitches (sys_exit msg) ns =
    match parameters s with
    | Ok (x :: y :: z :: _) =>
        Returns tt (<["glitch_skip" := VFloat z]>
                      (<["glitch_size" := VFloat y]>
                         (<["glitch_rate" := VFloat x]> ns)))
    | _ => SysExit msg
    end.
Proof.
  intros H. unfold try_except, Badread.parse_glitches, bind at 1.
  rewrite (float_list_eq _ _ _ H).
  destruct (parameters s) as [[|x [|y [|z fs]]]|]; reflexivity.
Qed.

(** A float compared with an integer never raises. *)
Lemma py_lt_float_int f z : exists b, py_lt (VFloat f) (VInt z) = Ok b.
Proof. unfold py_lt, py_compare; simpl; eauto. Qed.


Lemma py_lt_lt0 f : py_lt (VFloat f) (VInt 0) = Ok (lt0 f).
Proof. unfold lt0. by destruct (py_lt_float_int f 0) as [b ->]. Qed.

Lemma check_glitches_eq (ns : Namespace) s :
  ns !! "glitches" = Some (VStr s) ->
  check_glitches ns =
    match parameters s with
    | Ok (x :: y :: z :: _) =>
        if lt0 x || lt0 y || lt0 z
        then SysExit "Error: --glitches must contain non-negative values"
        else Returns tt (<["glitch_skip" := VFloat z]>
                           (<["glitch_size" := VFloat y]>
                              (<["glitch_rate" := VFloat x]> ns)))
    | _ => SysExit "Error: could not parse --glitches values"
    end.
Proof.
  intros H. unfold Badread.check_glitches, bind at 1.
  rewrite (try_parse_glitches_eq _ _ _ H).
  destruct (parameters s) as [[|x [|y [|z fs]]]|]; try reflexivity.
  unfold any_glitch_negative. run. lookups. rewrite (py_lt_lt0 x).
  destruct (lt0 x); simpl; [reflexivity|]. lookups. rewrite (py_lt_lt0 y).
  destruct (lt0 y); simpl; [reflexivity|]. lookups. rewrite (py_lt_lt0 z).
  destruct (lt0 z); reflexivity.
Qed.


(** A paragraph that does not raise found its attributes. *)
Lemma check_error_model_attr (ns : Namespace) :
  (forall e ns', check_error_model ns <> Raises e ns') ->
  exists s, ns !! "error_model" = Some (VStr s).
Proof.
  intros H. destruct (ns !! "error_model") as [[]|] eqn:E; eauto;
    exfalso; eapply H; unfold Badread.check_error_model; run; rewrite E; reflexivity.
Qed.

Lemma check_problem_rates_attr (ns : Namespace) :
  (forall e ns', check_problem_rates ns <> Raises e ns') ->
  (exists msg, check_problem_rates ns = SysExit msg) \/
  exists c j r, ns !! "chimeras" = Some c /\ ns !! "junk_reads" = Some j /\
                ns !! "random_reads" = Some r.
Proof.
  intros H. unfold check_problem_rates in *. revert H. run.
  destruct (ns !! "chimeras") as [c|]; [|intros H; exfalso; by eapply H].
  destruct (py_gt c (VInt 50)) as [[]|]; [eauto| |intros H; exfalso; by eapply H].
  destruct (ns !! "junk_reads") as [j|]; [|intros H; exfalso; by eapply H].
  destruct (py_gt j (VInt 100)) as [[]|]; [eauto| |intros H; exfalso; by eapply H].
  destruct (ns !! "random_reads") as [r|]; [|intros H; exfalso; by eapply H].
  intros _. right. eauto 10.
Qed.

Lemma check_length_attr (ns : Namespace) :
  (forall e ns', check_length ns <> Raises e ns') ->
  exists s, ns !! "length" = Some (VStr s).
Proof.
  intros H. destruct (ns !! "length") as [[]|] eqn:E; eauto;
    exfalso; eapply H; unfold Badread.check_length, Badread.parse_length, float_list;
    run; rewrite E; reflexivity.
Qed.

Lemma check_identity_attr (ns : Namespace) :
  (forall e ns', check_identity ns <> Raises e ns') ->
  exists s, ns !! "identity" = Some (VStr s).
Proof.
  intros H. destruct (ns !! "identity") as [[]|] eqn:E; eauto;
    exfalso; eapply H; unfold Badread.check_identity, Badread.parse_identity, float_list;
    run; rewrite E; reflexivity.
Qed.

Lemma check_glitches_attr (ns : Namespace) :
  (forall e ns', check_glitches ns <> Raises e ns') ->
  exists s, ns !! "glitches" = Some (VStr s).
Proof.
  intros H. destruct (ns !! "glitches") as [[]|] eqn:E; eauto;
    exfalso; eapply H; unfold Badread.check_glitches, Badread.parse_glitches, float_list;
    run; rewrite E; reflexivity.
Qed.

Lemma bind_returns {A B} (m : M A) (k : A -> M B) ns b ns' :
  bind m k ns = Returns b ns' <->
  exists a ns1, m ns = Returns a ns1 /\ k a ns1 = Returns b ns'.
Proof.
  unfold bind. destruct (m ns) as [a ns1| |]; [|split; [done|by intros (?&?&?&?)]..].
  split; [eauto|]. by intros (?&?&[= -> ->]&?).
Qed.

Lemma returns_no_raise {A} (r : outcome A) a ns :
  r = Returns a ns -> forall e ns', r <> Raises e ns'.
Proof. by intros ->. Qed.


Lemma lt0_false f : lt0 f = false <-> py_lt (VFloat f) (VInt 0) = Ok false.
Proof. rewrite py_lt_lt0. split; congruence. Qed.

Lemma check_simulate_args_accepted ns ns' :
  check_simulate_args ns = Returns tt ns' <-> accepted ns ns'.
Proof.
  unfold Badread.check_simulate_args. split.
  - intros H.
    apply bind_returns in H as ([] & ns1 & H1 & H).
    apply bind_returns in H as ([] & ns2 & H2 & H).
    apply bind_returns in H as ([] & ns3 & H3 & H).
    apply bind_returns in H as ([] & ns4 & H4 & H5).
    destruct (check_error_model_attr ns (returns_no_raise _ _ _ H1)) as [sel Es].
    rewrite (check_error_model_eq _ _ Es) in H1.
    destruct (selector_ok sel) eqn:Hsel; [|discriminate]. injection H1 as <-.
    destruct (check_problem_rates_attr ns (returns_no_raise _ _ _ H2))
      as [[msg E]|(c & j & r & Ec & Ej & Er)]; [congruence|].
    rewrite (check_problem_rates_eq _ _ _ _ Ec Ej Er) in H2.
    destruct (py_gt c _) as [[]|] eqn:T1; try discriminate.
    destruct (py_gt j _) as [[]|] eqn:T2; try discriminate.
    destruct (py_gt r _) as [[]|] eqn:T3; try discriminate.
    destruct (py_add j r) as [t|] eqn:T4; try discriminate.
    destruct (py_gt t _) as [[]|] eqn:T5; try discriminate. injection H2 as <-.
    destruct (check_length_attr ns (returns_no_raise _ _ _ H3)) as [sl El].
    rewrite (check_length_eq _ _ El) in H3.
    destruct (parameters sl) as [[|x0 [|x1 lrest]]|] eqn:Pl; try discriminate.
    cbv zeta in H3.
    destruct (py_le (VFloat x0) MINL) as [[]|] eqn:T6; try discriminate.
    destruct (py_lt (VFloat x1) _) as [[]|] eqn:T7; try discriminate.
    injection H3 as <-.
    destruct (check_identity_attr _ (returns_no_raise _ _ _ H4)) as [si Ei].
    rewrite (check_identity_eq _ _ Ei) in H4.
    destruct (parameters si) as [[|i0 [|i1 [|i2 irest]]]|] eqn:Pi; try discriminate.
    cbv zeta in H4.
    destruct (py_gt (VFloat i0) (VFloat (Float64.of_Z 100))) as [[]|] eqn:T8;
      try discriminate.
    destruct (py_gt (VFloat i1) (VFloat (Float64.of_Z 100))) as [[]|] eqn:T9;
      try discriminate.
    destruct (py_le (VFloat i0) MINI) as [[]|] eqn:T10; try discriminate.
    destruct (py_le (VFloat i1) MINI) as [[]|] eqn:T11; try discriminate.
    destruct (py_gt (VFloat i0) (VFloat i1)) as [[]|] eqn:T12; try discriminate.
    destruct (py_le (VFloat i2) _) as [[]|] eqn:T13; try discriminate.
    injection H4 as <-.
    destruct (check_glitches_attr _ (returns_no_raise _ _ _ H5)) as [sg Eg].
    rewrite (check_glitches_eq _ _ Eg) in H5.
    destruct (parameters sg) as [[|g0 [|g1 [|g2 grest]]]|] eqn:Pg; try discriminate.
    destruct (lt0 g0) eqn:G0; [discriminate|].
    destruct (lt0 g1) eqn:G1; [discriminate|].
    destruct (lt0 g2) eqn:G2; [discriminate|].
    injection H5 as <-.
    revert Ei Eg. lookups. intros Ei Eg.
    apply lt0_false in G0, G1, G2.
    by eapply Accepted.
  - intros []. unfold bind.
    rewrite (check_error_model_eq _ _ H), H0.
    rewrite (check_problem_rates_eq _ _ _ _ H1 H2 H3), H4, H5, H6, H7, H8.
    rewrite (check_length_eq _ _ H9), H10. cbv zeta. rewrite H11, H12.
    erewrite check_identity_eq by (lookups; eassumption).
    rewrite H14. cbv zeta. rewrite H15, H16, H17, H18, H19, H20.
    erewrite check_glitches_eq by (lookups; eassumption).
    rewrite H22. apply lt0_false in H23, H24, H25. by rewrite H23, H24, H25.
Qed.


Lemma bind_ext {A B} (m m' : M A) (k k' : A -> M B) ns :
  m ns = m' ns -> (forall a ns1, k a ns1 = k' a ns1) -> bind m k ns = bind m' k' ns.
Proof. intros E H. unfold bind. rewrite E. by destruct (m' ns). Qed.

Lemma enforce_all_app l1 l2 ns :
  enforce_all (l1 ++ l2) ns = bind (enforce_all l1) (fun _ => enforce_all l2) ns.
Proof.
  revert ns. induction l1 as [|r l1 IH]; intros ns; simpl.
  - reflexivity.
  - unfold bind. destruct (enforce r ns) as [[] ns1| |]; try reflexivity.
    apply IH.
Qed.

(** One statement [if cond: sys.exit(msg)] after another is the
    enforcement of one rule after another. *)
Lemma enforce_test name cond msg (k : M unit) rs ns :
  (forall ns1, k ns1 = enforce_all rs ns1) ->
  bind (getattr name) (fun v => bind (eval (cond v)) (fun c =>
    bind (when c (sys_exit msg)) (fun _ => k))) ns
  = enforce_all (test name cond msg :: rs) ns.
Proof.
  intros H. simpl. run. destruct (ns !! name) as [v|]; [|reflexivity].
  destruct (cond v) as [[]|]; try reflexivity. apply H.
Qed.

Lemma enforce_try body msg (k : M unit) rs ns :
  (forall ns1, k ns1 = enforce_all rs ns1) ->
  bind (try_except body (sys_exit msg)) (fun _ => k) ns
  = enforce_all ({| violated := fails body; message := fun _ => msg |} :: rs) ns.
Proof.
  intros H. simpl. run. destruct (body ns) as [[]| |[]]; try reflexivity; apply H.
Qed.

Lemma enforce_last name cond msg ns :
  bind (getattr name) (fun v => bind (eval (cond v)) (fun c =>
    when c (sys_exit msg))) ns
  = enforce_all [test name cond msg] ns.
Proof.
  simpl. run. destruct (ns !! name) as [v|]; [|reflexivity].
  destruct (cond v) as [[]|]; reflexivity.
Qed.

Lemma check_error_model_rules ns :
  check_error_model ns
  = enforce_all (take 1 rules) ns.
Proof.
  simpl. unfold Badread.check_error_model, attr. run.
  destruct (ns !! "error_model") as [v|] eqn:E; [|reflexivity].
  destruct (str_lower v) as [model|]; [|reflexivity].
  destruct (negb (String.eqb model "perfect") && negb (String.eqb model "random"));
    [|reflexivity].
  rewrite E. destruct (as_path v) as [path|]; [|reflexivity].
  destruct (negb (is_file path)); [|reflexivity]. by rewrite E.
Qed.

Lemma check_problem_rates_rules ns :
  check_problem_rates ns
  = enforce_all (take 4 (drop 1 rules)) ns.
Proof.
  unfold check_problem_rates. cbn [Badread.rules take drop].
  apply enforce_test; intros ns1. apply enforce_test; intros ns2.
  apply enforce_test; intros ns3. simpl. run.
  destruct (ns3 !! "junk_reads") as [j|]; [|reflexivity].
  destruct (ns3 !! "random_reads") as [r|]; [|reflexivity].
  destruct (py_add j r) as [t|]; [|reflexivity].
  destruct (py_gt t (VInt 100)) as [[]|]; reflexivity.
Qed.

Lemma check_length_rules ns :
  check_length ns
  = enforce_all (take 3 (drop 5 rules)) ns.
Proof.
  unfold Badread.check_length. cbn [Badread.rules take drop].
  apply enforce_try; intros ns1. apply enforce_test; intros ns2.
  apply enforce_last.
Qed.

Lemma check_identity_rules ns :
  check_identity ns
  = enforce_all (take 7 (drop 8 rules)) ns.
Proof.
  unfold Badread.check_identity. cbn [Badread.rules take drop].
  apply enforce_try; intros ns1. apply enforce_test; intros ns2.
  apply enforce_test; intros ns3. apply enforce_test; intros ns4.
  apply enforce_test; intros ns5.
  cbn [enforce_all]. unfold attr. run.
  destruct (ns5 !! "mean_identity") as [m|] eqn:Em; [|reflexivity].
  destruct (ns5 !! "max_identity") as [x|] eqn:Ex; [|reflexivity].
  destruct (py_gt m x) as [[]|]; try reflexivity.
  - by rewrite Em, Ex.
  - destruct (ns5 !! "identity_shape") as [z|]; [|reflexivity].
    destruct (py_le z _) as [[]|]; reflexivity.
Qed.

Lemma check_glitches_rules ns :
  check_glitches ns
  = enforce_all (drop 15 rules) ns.
Proof.
  unfold Badread.check_glitches. cbn [Badread.rules drop].
  apply enforce_try; intros ns1. simpl. run.
  destruct (any_glitch_negative ns1) as [[]| |]; reflexivity.
Qed.

Lemma check_simulate_args_rules ns :
  check_simulate_args ns =
  enforce_all rules ns.
Proof.
  set (rs := rules).
  assert (rs = (take 1 rs ++ take 4 (drop 1 rs) ++ take 3 (drop 5 rs)
                ++ take 7 (drop 8 rs) ++ drop 15 rs)%list) as -> by reflexivity.
  unfold Badread.check_simulate_args.
  rewrite enforce_all_app. apply bind_ext; [apply check_error_model_rules|intros _ ns1].
  rewrite enforce_all_app. apply bind_ext; [apply check_problem_rates_rules|intros _ ns2].
  rewrite enforce_all_app. apply bind_ext; [apply check_length_rules|intros _ ns3].
  rewrite enforce_all_app. apply bind_ext; [apply check_identity_rules|intros _ ns4].
  apply check_glitches_rules.
Qed.

(** ** Consequences for whole runs *)

Ltac invert_accepted H :=
  destruct H as
    [sel c j r t sl x0 x1 lrest si i0 i1 i2 irest sg g0 g1 g2 grest
       Esel Hsel Ec Ej Er Tc Tj Tr Tadd Tsum El Pl Tm Tsd
       Ei Pi Ti0 Ti1 Tl0 Tl1 Tmx Tsh Eg Pg G0 G1 G2].

Lemma not_returns_terminates (r : outcome unit) :
  (forall ns', r <> Returns tt ns') -> terminates_with_error r.
Proof. destruct r as [[] ns'| |]; simpl; [|done..]. intros H. by apply (H ns'). Qed.

Lemma in_names (name : string) names (ns : Namespace) v :
  no_nan names ns -> name ∈ names -> ns !! name = Some v -> value_is_nan v = false.
Proof. intros H Hin Hv. by apply (H name v). Qed.

(** C1, as amended: when [check_simulate_args] returns and none of
    [chimeras], [junk_reads], [random_reads] and [frag_length_stdev] is a
    NaN, then [chimeras <= 50], [junk_reads <= 100], [random_reads <= 100],
    [junk_reads + random_reads <= 100] and [frag_length_stdev >= 0] hold
    of the resulting namespace; and arguments of which one of the tests
    [chimeras > 50], [junk_reads > 100], [random_reads > 100],
    [junk_reads + random_reads > 100], [frag_length_stdev < 0] is true make
    the program end with an error instead of returning. *)
Theorem rates_validated ns :
  (forall ns', check_simulate_args ns = Returns tt ns' ->
     no_nan ["chimeras"; "junk_reads"; "random_reads"; "frag_length_stdev"] ns' ->
     rates_within_bounds ns') /\
  (exceeds_a_bound ns -> terminates_with_error (check_simulate_args ns)).
Proof.
  split.
  - intros ns' H Hnan. apply check_simulate_args_accepted in H. invert_accepted H.
    assert (value_is_nan c = false) as Nc
      by (eapply (in_names "chimeras"); [done|set_solver|by lookups]).
    assert (value_is_nan j = false) as Nj
      by (eapply (in_names "junk_reads"); [done|set_solver|by lookups]).
    assert (value_is_nan r = false) as Nr
      by (eapply (in_names "random_reads"); [done|set_solver|by lookups]).
    assert (value_is_nan (VFloat x1) = false) as Nsd
      by (eapply (in_names "frag_length_stdev"); [done|set_solver|by lookups]).
    exists c, j, r, t, (VFloat x1). lookups.
    pose proof (py_add_not_nan _ _ _ Tadd Nj Nr Tj Tr) as Nt.
    repeat split; try done; auto using py_gt_false_le, py_lt_false_ge.
  - intros Hex. apply not_returns_terminates. intros ns' H.
    apply check_simulate_args_accepted in H. invert_accepted H.
    destruct Hex as [(c' & E1 & T)|[(j' & E1 & T)|[(r' & E1 & T)|
      [(j' & r' & t' & E1 & E2 & A & T)|(s & fs & sd & E1 & Hp & Hsd & T)]]]].
    + rewrite Ec in E1. injection E1 as <-. rewrite Tc in T. discriminate.
    + rewrite Ej in E1. injection E1 as <-. rewrite Tj in T. discriminate.
    + rewrite Er in E1. injection E1 as <-. rewrite Tr in T. discriminate.
    + rewrite Ej in E1. rewrite Er in E2. injection E1 as <-. injection E2 as <-.
      rewrite Tadd in A. injection A as <-. rewrite Tsum in T. discriminate.
    + rewrite El in E1. injection E1 as <-. rewrite Pl in Hp. injection Hp as <-.
      simpl in Hsd. injection Hsd as <-. rewrite Tsd in T. discriminate.
Qed.

(** C3, as amended: when [check_simulate_args] returns, neither
    [mean_identity] nor [max_identity] is above 100; and when moreover
    none of [mean_identity], [max_identity], [identity_shape] and
    [MIN_MEAN_READ_IDENTITY] is a NaN, then
    [MIN_MEAN_READ_IDENTITY < mean_identity <= max_identity <= 100] and
    [identity_shape > 0]. *)
Theorem identity_validated ns ns' :
  check_simulate_args ns = Returns tt ns' ->
  identity_at_most_100 ns' /\
  (no_nan ["mean_identity"; "max_identity"; "identity_shape"] ns' ->
   value_is_nan MINI = false ->
   identity_within_bounds ns').
Proof.
  intros H. apply check_simulate_args_accepted in H. invert_accepted H. split.
  - exists (VFloat i0), (VFloat i1). by lookups.
  - intros Hnan Nmin.
    assert (value_is_nan (VFloat i0) = false) as N0
      by (eapply (in_names "mean_identity"); [done|set_solver|by lookups]).
    assert (value_is_nan (VFloat i1) = false) as N1
      by (eapply (in_names "max_identity"); [done|set_solver|by lookups]).
    assert (value_is_nan (VFloat i2) = false) as N2
      by (eapply (in_names "identity_shape"); [done|set_solver|by lookups]).
    assert (value_is_nan (VFloat (Float64.of_Z 100)) = false) as N100
      by apply of_Z_not_nan.
    exists (VFloat i0), (VFloat i1), (VFloat i2). lookups.
    repeat split; try done;
      auto using py_gt_false_le, py_le_false_lt, py_le_false_gt.
Qed.

(** The paragraphs before the one under study, when they return. *)
Lemma check_error_model_frame (ns ns' : Namespace) u :
  check_error_model ns = Returns u ns' -> ns' = ns.
Proof.
  intros H. destruct (check_error_model_attr ns (returns_no_raise _ _ _ H)) as [s E].
  rewrite (check_error_model_eq _ _ E) in H.
  destruct (selector_ok s); [|discriminate]. by injection H.
Qed.

Lemma check_problem_rates_frame (ns ns' : Namespace) u :
  check_problem_rates ns = Returns u ns' -> ns' = ns.
Proof.
  intros H.
  destruct (check_problem_rates_attr ns (returns_no_raise _ _ _ H))
    as [[msg E]|(c & j & r & Ec & Ej & Er)]; [rewrite E in H; discriminate|].
  rewrite (check_problem_rates_eq _ _ _ _ Ec Ej Er) in H.
  destruct (py_gt c _) as [[]|]; try discriminate.
  destruct (py_gt j _) as [[]|]; try discriminate.
  destruct (py_gt r _) as [[]|]; try discriminate.
  destruct (py_add j r) as [t|]; try discriminate.
  destruct (py_gt t _) as [[]|]; try discriminate. by injection H.
Qed.

Lemma check_length_frame (ns ns' : Namespace) u :
  check_length ns = Returns u ns' ->
  exists x y, ns' = <["frag_length_stdev" := VFloat y]>
                      (<["mean_frag_length" := VFloat x]> ns).
Proof.
  intros H. destruct (check_length_attr ns (returns_no_raise _ _ _ H)) as [s E].
  rewrite (check_length_eq _ _ E) in H.
  destruct (parameters s) as [[|x [|y rest]]|]; try discriminate. cbv zeta in H.
  destruct (py_le _ MINL) as [[]|]; try discriminate.
  destruct (py_lt _ _) as [[]|]; try discriminate.
  injection H as _ <-. eauto.
Qed.

Lemma check_identity_frame (ns ns' : Namespace) u :
  check_identity ns = Returns u ns' ->
  exists x y z, ns' = <["identity_shape" := VFloat z]>
                        (<["max_identity" := VFloat y]>
                           (<["mean_identity" := VFloat x]> ns)).
Proof.
  intros H. destruct (check_identity_attr ns (returns_no_raise _ _ _ H)) as [s E].
  rewrite (check_identity_eq _ _ E) in H.
  destruct (parameters s) as [[|x [|y [|z rest]]]|]; try discriminate.
  cbv zeta in H.
  destruct (py_gt (VFloat x) (VFloat (Float64.of_Z 100))) as [[]|]; try discriminate.
  destruct (py_gt (VFloat y) (VFloat (Float64.of_Z 100))) as [[]|]; try discriminate.
  destruct (py_le (VFloat x) MINI) as [[]|]; try discriminate.
  destruct (py_le (VFloat y) MINI) as [[]|]; try discriminate.
  destruct (py_gt (VFloat x) (VFloat y)) as [[]|]; try discriminate.
  destruct (py_le (VFloat z) _) as [[]|]; try discriminate.
  injection H as _ <-. eauto.
Qed.

Lemma before_length (ns ns1 : Namespace) :
  checks_before_length ns = Returns tt ns1 ->
  ns1 = ns /\
  check_simulate_args ns
  = bind check_length (fun _ => bind check_identity (fun _ => check_glitches)) ns.
Proof.
  unfold Badread.checks_before_length, Badread.check_simulate_args. intros H.
  apply bind_returns in H as (u1 & n1 & H1 & H2).
  pose proof (check_error_model_frame _ _ _ H1) as ->.
  pose proof (check_problem_rates_frame _ _ _ H2) as ->.
  split; [done|]. unfold bind at 1. rewrite H1. unfold bind at 1. by rewrite H2.
Qed.

Lemma before_identity (ns ns1 : Namespace) :
  checks_before_identity ns = Returns tt ns1 ->
  (exists x y, ns1 = <["frag_length_stdev" := VFloat y]>
                       (<["mean_frag_length" := VFloat x]> ns)) /\
  check_simulate_args ns = bind check_identity (fun _ => check_glitches) ns1.
Proof.
  unfold Badread.checks_before_identity, Badread.check_simulate_args. intros H.
  apply bind_returns in H as (u1 & n1 & H1 & H).
  apply bind_returns in H as (u2 & n2 & H2 & H3).
  pose proof (check_error_model_frame _ _ _ H1) as ->.
  pose proof (check_problem_rates_frame _ _ _ H2) as ->.
  split; [by eapply check_length_frame|].
  unfold bind at 1. rewrite H1. unfold bind at 1. rewrite H2.
  unfold bind at 1. by rewrite H3.
Qed.

Lemma before_glitches (ns ns1 : Namespace) :
  checks_before_glitches ns = Returns tt ns1 ->
  (exists a b x y z,
     ns1 = <["identity_shape" := VFloat z]>
             (<["max_identity" := VFloat y]>
                (<["mean_identity" := VFloat x]>
                   (<["frag_length_stdev" := VFloat b]>
                      (<["mean_frag_length" := VFloat a]> ns))))) /\
  check_simulate_args ns = check_glitches ns1.
Proof.
  unfold Badread.checks_before_glitches, Badread.check_simulate_args. intros H.
  apply bind_returns in H as (u1 & n1 & H1 & H).
  apply bind_returns in H as (u2 & n2 & H2 & H).
  apply bind_returns in H as (u3 & n3 & H3 & H4).
  pose proof (check_error_model_frame _ _ _ H1) as ->.
  pose proof (check_problem_rates_frame _ _ _ H2) as ->.
  destruct (check_length_frame _ _ _ H3) as (a & b & ->).
  destruct (check_identity_frame _ _ _ H4) as (x & y & z & ->).
  split; [by exists a, b, x, y, z|].
  unfold bind at 1. rewrite H1. unfold bind at 1. rewrite H2.
  unfold bind at 1. rewrite H3. unfold bind at 1. by rewrite H4.
Qed.

(** C2: the selector passes the check of lines 175-180 exactly when its
    lower-case form is "perfect" or "random" or it names a file, and the
    rest of the validation then runs as if the check were not there;
    otherwise the program exits with the message that [--error_model]
    must be "random", "perfect" or a filename. *)
Theorem error_model_selector (ns : Namespace) s :
  ns !! "error_model" = Some (VStr s) ->
  (check_error_model ns = Returns tt ns <-> selector_ok s = true) /\
  (selector_ok s = true ->
   check_simulate_args ns
   = bind check_problem_rates (fun _ => bind check_length (fun _ =>
       bind check_identity (fun _ => check_glitches))) ns) /\
  (selector_ok s = false ->
   check_simulate_args ns = SysExit (not_a_file s) /\
   not_a_file s
   = "Error: " +:+ s +:+ " is not a file" +:+ newline
     +:+ "  --error_model must be " +:+ dquote +:+ "random" +:+ dquote
     +:+ ", " +:+ dquote +:+ "perfect" +:+ dquote +:+ " or a filename").
Proof.
  intros E. pose proof (check_error_model_eq _ _ E) as Heq. repeat split.
  - intros H. rewrite Heq in H. by destruct (selector_ok s).
  - intros H. by rewrite Heq, H.
  - intros H. unfold Badread.check_simulate_args, bind at 1. by rewrite Heq, H.
  - unfold Badread.check_simulate_args, bind at 1. by rewrite Heq, H.
Qed.

Lemma parsable_false_2 s :
  parsable 2 s = false ->
  match parameters s with Ok (_ :: _ :: _) => False | _ => True end.
Proof.
  unfold Badread.parsable. destruct (parameters s) as [[|x [|y rest]]|]; done.
Qed.

Lemma parsable_false_3 s :
  parsable 3 s = false ->
  match parameters s with Ok (_ :: _ :: _ :: _) => False | _ => True end.
Proof.
  unfold Badread.parsable. destruct (parameters s) as [[|x [|y [|z rest]]]|]; done.
Qed.

(** C4: when the [--length], [--identity] or [--glitches] string does
    not split into at least 2, 3 and 3 numbers, the program never
    returns from [check_simulate_args]; it exits with the "could not
    parse" message of that argument once the checks that come before
    have passed. *)
Theorem unparsable_parameters_exit (ns : Namespace) s :
  (ns !! "length" = Some (VStr s) -> parsable 2 s = false ->
   terminates_with_error (check_simulate_args ns) /\
   forall ns1, checks_before_length ns = Returns tt ns1 ->
     check_simulate_args ns = SysExit "Error: could not parse --length values") /\
  (ns !! "identity" = Some (VStr s) -> parsable 3 s = false ->
   terminates_with_error (check_simulate_args ns) /\
   forall ns1, checks_before_identity ns = Returns tt ns1 ->
     check_simulate_args ns = SysExit "Error: could not parse --identity values") /\
  (ns !! "glitches" = Some (VStr s) -> parsable 3 s = false ->
   terminates_with_error (check_simulate_args ns) /\
   forall ns1, checks_before_glitches ns = Returns tt ns1 ->
     check_simulate_args ns = SysExit "Error: could not parse --glitches values").
Proof.
  repeat split.
  - apply not_returns_terminates. intros ns' Hr.
    apply check_simulate_args_accepted in Hr. invert_accepted Hr.
    rewrite El in H. injection H as <-.
    apply parsable_false_2 in H0. by rewrite Pl in H0.
  - intros ns1 Hb. apply before_length in Hb as [-> ->].
    unfold bind at 1. rewrite (check_length_eq _ _ H).
    apply parsable_false_2 in H0.
    by destruct (parameters s) as [[|x [|y rest]]|].
  - apply not_returns_terminates. intros ns' Hr.
    apply check_simulate_args_accepted in Hr. invert_accepted Hr.
    rewrite Ei in H. injection H as <-.
    apply parsable_false_3 in H0. by rewrite Pi in H0.
  - intros ns1 Hb. apply before_identity in Hb as [(x & y & ->) ->].
    unfold bind at 1. erewrite check_identity_eq by (lookups; exact H).
    apply parsable_false_3 in H0.
    by destruct (parameters s) as [[|a [|b [|c rest]]]|].
  - apply not_returns_terminates. intros ns' Hr.
    apply check_simulate_args_accepted in Hr. invert_accepted Hr.
    rewrite Eg in H. injection H as <-.
    apply parsable_false_3 in H0. by rewrite Pg in H0.
  - intros ns1 Hb. apply before_glitches in Hb as [(a & b & x & y & z & ->) ->].
    erewrite check_glitches_eq by (lookups; exact H).
    apply parsable_false_3 in H0.
    by destruct (parameters s) as [[|a' [|b' [|c' rest]]]|].
Qed.

Lemma lt0_true f : lt0 f = true <-> py_lt (VFloat f) (VInt 0) = Ok true.
Proof. rewrite py_lt_lt0. split; congruence. Qed.

(** C5: with the earlier checks passed, a glitch rate equal to 0 with a
    size and a skip that are at least 0 makes [check_simulate_args]
    return, the three glitch attributes assigned; a rate, size or skip
    below 0 makes the program end with an error, which is the exit with
    the "non-negative values" message once the earlier checks have
    passed. *)
Theorem glitch_rate_zero_accepted (ns : Namespace) s rate size skip rest :
  ns !! "glitches" = Some (VStr s) ->
  parameters s = Ok (rate :: size :: skip :: rest) ->
  (forall ns1, checks_before_glitches ns = Returns tt ns1 ->
     py_eq_num (VFloat rate) (VInt 0) = Ok true ->
     py_ge (VFloat size) (VInt 0) = Ok true ->
     py_ge (VFloat skip) (VInt 0) = Ok true ->
     check_simulate_args ns
     = Returns tt (<["glitch_skip" := VFloat skip]>
                     (<["glitch_size" := VFloat size]>
                        (<["glitch_rate" := VFloat rate]> ns1)))) /\
  (py_lt (VFloat rate) (VInt 0) = Ok true \/
   py_lt (VFloat size) (VInt 0) = Ok true \/
   py_lt (VFloat skip) (VInt 0) = Ok true ->
   terminates_with_error (check_simulate_args ns) /\
   forall ns1, checks_before_glitches ns = Returns tt ns1 ->
     check_simulate_args ns
     = SysExit "Error: --glitches must contain non-negative values").
Proof.
  intros E P. split.
  - intros ns1 Hb Hr Hs Hk.
    apply before_glitches in Hb as [(a & b & x & y & z & ->) ->].
    erewrite check_glitches_eq by (lookups; exact E). rewrite P.
    apply py_eq_not_lt, lt0_false in Hr. apply py_ge_not_lt, lt0_false in Hs.
    apply py_ge_not_lt, lt0_false in Hk. by rewrite Hr, Hs, Hk.
  - intros Hneg. split.
    + apply not_returns_terminates. intros ns' Hr.
      apply check_simulate_args_accepted in Hr. invert_accepted Hr.
      rewrite Eg in E. injection E as <-. rewrite Pg in P.
      injection P as <- <- <- <-.
      destruct Hneg as [T|[T|T]];
        [rewrite G0 in T|rewrite G1 in T|rewrite G2 in T]; discriminate.
    + intros ns1 Hb.
      apply before_glitches in Hb as [(a & b & x & y & z & ->) ->].
      erewrite check_glitches_eq by (lookups; exact E). rewrite P.
      destruct Hneg as [T|[T|T]]; apply lt0_true in T; rewrite T;
        by destruct (lt0 rate), (lt0 size).
Qed.

(** C8: a mean fragment length equal to [MIN_MEAN_READ_LENGTH], and a
    mean or a maximum identity equal to [MIN_MEAN_READ_IDENTITY], are
    rejected: the program never returns from [check_simulate_args], and
    it exits with the "must be at least" message of that value once
    validation has come to its test. *)
Theorem boundary_values_rejected (ns : Namespace) s :
  (forall mean stdev rest,
     ns !! "length" = Some (VStr s) ->
     parameters s = Ok (mean :: stdev :: rest) ->
     py_eq_num (VFloat mean) MINL = Ok true ->
     terminates_with_error (check_simulate_args ns) /\
     forall ns1, checks_before_length ns = Returns tt ns1 ->
       check_simulate_args ns
       = SysExit ("Error: mean read length must be at least "
                  +:+ format_value py_format MINL)) /\
  (forall mean max shape rest,
     ns !! "identity" = Some (VStr s) ->
     parameters s = Ok (mean :: max :: shape :: rest) ->
     (py_eq_num (VFloat mean) MINI = Ok true ->
      terminates_with_error (check_simulate_args ns) /\
      forall ns1, checks_before_identity ns = Returns tt ns1 ->
        py_gt (VFloat mean) (VFloat (Float64.of_Z 100)) = Ok false ->
        py_gt (VFloat max) (VFloat (Float64.of_Z 100)) = Ok false ->
        check_simulate_args ns
        = SysExit ("Error: mean read identity must be at least "
                   +:+ format_value py_format MINI)) /\
     (py_eq_num (VFloat max) MINI = Ok true ->
      terminates_with_error (check_simulate_args ns) /\
      forall ns1, checks_before_identity ns = Returns tt ns1 ->
        py_gt (VFloat mean) (VFloat (Float64.of_Z 100)) = Ok false ->
        py_gt (VFloat max) (VFloat (Float64.of_Z 100)) = Ok false ->
        py_le (VFloat mean) MINI = Ok false ->
        check_simulate_args ns
        = SysExit ("Error: max read identity must be at least "
                   +:+ format_value py_format MINI))).
Proof.
  split.
  - intros mean stdev rest E P Heq. apply py_eq_le in Heq. split.
    + apply not_returns_terminates. intros ns' Hr.
      apply check_simulate_args_accepted in Hr. invert_accepted Hr.
      rewrite El in E. injection E as <-. rewrite Pl in P.
      injection P as <- <- <-. rewrite Tm in Heq. discriminate.
    + intros ns1 Hb. apply before_length in Hb as [-> ->].
      unfold bind at 1. rewrite (check_length_eq _ _ E), P. cbv zeta.
      by rewrite Heq.
  - intros mean max shape rest E P. split.
    + intros Heq. apply py_eq_le in Heq. split.
      * apply not_returns_terminates. intros ns' Hr.
        apply check_simulate_args_accepted in Hr. invert_accepted Hr.
        rewrite Ei in E. injection E as <-. rewrite Pi in P.
        injection P as <- <- <- <-. rewrite Tl0 in Heq. discriminate.
      * intros ns1 Hb G0 G1. apply before_identity in Hb as [(x & y & ->) ->].
        unfold bind at 1. erewrite check_identity_eq by (lookups; exact E).
        rewrite P. cbv zeta. by rewrite G0, G1, Heq.
    + intros Heq. apply py_eq_le in Heq. split.
      * apply not_returns_terminates. intros ns' Hr.
        apply check_simulate_args_accepted in Hr. invert_accepted Hr.
        rewrite Ei in E. injection E as <-. rewrite Pi in P.
        injection P as <- <- <- <-. rewrite Tl1 in Heq. discriminate.
      * intros ns1 Hb G0 G1 L0. apply before_identity in Hb as [(x & y & ->) ->].
        unfold bind at 1. erewrite check_identity_eq by (lookups; exact E).
        rewrite P. cbv zeta. by rewrite G0, G1, L0, Heq.
Qed.

Lemma derived_fields_ne (k : string) :
  k ∉ derived_fields ->
  k <> "mean_frag_length" /\ k <> "frag_length_stdev" /\ k <> "mean_identity" /\
  k <> "max_identity" /\ k <> "identity_shape" /\ k <> "glitch_rate" /\
  k <> "glitch_size" /\ k <> "glitch_skip".
Proof.
  unfold derived_fields. intros H. repeat split; intros ->; apply H;
    repeat first [apply list_elem_of_here | apply list_elem_of_further].
Qed.

(** What a successful call leaves: the attributes other than the eight
    derived ones as they were, and each derived attribute holding the
    float parsed from its position in its source string. *)
Lemma accepted_frame (ns ns' : Namespace) :
  check_simulate_args ns = Returns tt ns' ->
  (forall k, k ∉ derived_fields -> ns' !! k = ns !! k) /\
  (forall field source i, (field, (source, i)) ∈ derivation ->
     exists f, parsed_from ns source i = Some (VFloat f) /\
               ns' !! field = Some (VFloat f)) /\
  ((forall k, k ∈ derived_fields -> ns !! k = None) ->
   forall k v, ns !! k = Some v -> ns' !! k = Some v).
Proof.
  intros H. apply check_simulate_args_accepted in H. invert_accepted H.
  assert (forall k, k ∉ derived_fields ->
    <["glitch_skip" := VFloat g2]> (<["glitch_size" := VFloat g1]>
      (<["glitch_rate" := VFloat g0]> (<["identity_shape" := VFloat i2]>
        (<["max_identity" := VFloat i1]> (<["mean_identity" := VFloat i0]>
          (<["frag_length_stdev" := VFloat x1]>
            (<["mean_frag_length" := VFloat x0]> ns))))))) !! k = ns !! k) as F.
  { intros k Hk. apply derived_fields_ne in Hk as (?&?&?&?&?&?&?&?).
    by rewrite !lookup_insert_ne by done. }
  split; [exact F|]. split.
  - intros field source i Hin. unfold derivation in Hin.
    unfold Badread.parsed_from.
    repeat (apply elem_of_cons in Hin as [[= -> -> ->]|Hin]);
      [..|by apply elem_of_nil in Hin].
    all: rewrite ?El, ?Ei, ?Eg, ?Pl, ?Pi, ?Pg; simpl; eexists; split;
      [reflexivity|by lookups].
  - intros Habs k v Hk. rewrite F; [done|]. intros Hd.
    rewrite (Habs k Hd) in Hk. discriminate.
Qed.

(** The condition of a rule never exits by itself. *)
Lemma no_exit_bind {A B} (m : M A) (k : A -> M B) :
  no_exit m -> (forall a, no_exit (k a)) -> no_exit (bind m k).
Proof.
  intros Hm Hk ns msg. unfold bind. destruct (m ns) as [a ns1| |] eqn:E.
  - apply Hk.
  - by apply Hm in E.
  - discriminate.
Qed.

Lemma no_exit_getattr name : no_exit (getattr name).
Proof. intros ns msg. unfold getattr. by destruct (ns !! name). Qed.

Lemma no_exit_setattr name v : no_exit (setattr name v).
Proof. by intros ns msg. Qed.

Lemma no_exit_eval {A} (r : res A) : no_exit (eval r).
Proof. intros ns msg. unfold eval. by destruct r. Qed.

Lemma no_exit_ret {A} (a : A) : no_exit (ret a).
Proof. by intros ns msg. Qed.

Lemma no_exit_if {A} (c : bool) (m1 m2 : M A) :
  no_exit m1 -> no_exit m2 -> no_exit (if c then m1 else m2).
Proof. by destruct c. Qed.

Lemma no_exit_fails body : no_exit body -> no_exit (fails body).
Proof.
  intros H ns msg. unfold fails. destruct (body ns) as [a ns1| |[]] eqn:E; try done.
  by apply H in E.
Qed.

Lemma no_exit_float_list name : no_exit (float_list py_float name).
Proof.
  unfold float_list.
  repeat first [apply no_exit_bind; [|intros ?] | apply no_exit_getattr
               | apply no_exit_eval].
Qed.

Ltac no_exit :=
  repeat first
    [ apply no_exit_fails
    | apply no_exit_bind; [|intros ?]
    | apply no_exit_if
    | apply no_exit_float_list
    | apply no_exit_getattr
    | apply no_exit_setattr
    | apply no_exit_eval
    | apply no_exit_ret ].

Lemma rules_no_exit : Forall (fun r => no_exit (violated r)) rules.
Proof.
  unfold Badread.rules, test, Badread.parse_length, Badread.parse_identity,
    Badread.parse_glitches, any_glitch_negative.
  repeat (apply Forall_cons; split; [cbn [violated]; no_exit|]).
  apply Forall_nil_2.
Qed.

(** The run of a list of rules exits at the first rule whose condition
    holds, with the message of that rule. *)
Lemma enforce_all_exit rs ns msg :
  Forall (fun r => no_exit (violated r)) rs ->
  enforce_all rs ns = SysExit msg ->
  exists i r ns1 ns2,
    rs !! i = Some r /\
    enforce_all (take i rs) ns = Returns tt ns1 /\
    violated r ns1 = Returns true ns2 /\
    msg = message r ns2.
Proof.
  intros Hrs. revert ns. induction Hrs as [|r rs Hr Hrs IH]; intros ns; simpl.
  - discriminate.
  - unfold bind at 1. unfold enforce at 1. unfold bind at 1.
    destruct (violated r ns) as [[] ns2| |] eqn:E; simpl.
    + intros [= <-]. exists 0%nat, r, ns, ns2. by repeat split.
    + intros H. destruct (IH _ H) as (i & r' & n1 & n2 & Hi & Ht & Hv & Hm).
      exists (S i), r', n1, n2. repeat split; try done.
      simpl. unfold bind at 1, enforce at 1, bind at 1. by rewrite E.
    + intros H. by apply Hr in E.
    + discriminate.
Qed.

(** A rule that is violated after the rules before it passed ends the
    run of the list with its message. *)
Lemma enforce_all_violated rs ns i r ns1 ns2 :
  rs !! i = Some r ->
  enforce_all (take i rs) ns = Returns tt ns1 ->
  violated r ns1 = Returns true ns2 ->
  enforce_all rs ns = SysExit (message r ns2).
Proof.
  revert ns i. induction rs as [|r0 rs IH]; intros ns i Hi Ht Hv.
  - discriminate.
  - destruct i as [|i]; simpl in Hi, Ht.
    + injection Hi as ->. injection Ht as ->.
      simpl. unfold bind at 1, enforce at 1, bind at 1. by rewrite Hv.
    + apply bind_returns in Ht as (u & ns0 & H0 & Ht).
      simpl. unfold bind at 1. rewrite H0. by eapply IH.
Qed.

(** C7: [check_simulate_args] is the ordered list of rules, enforced
    one after the other.  A rule whose condition is true, after every
    rule before it was evaluated and found not violated, makes the
    program exit at once with the message of that rule, no later rule
    being evaluated; and when [check_simulate_args] exits, it is in
    this way, with the message of one rule.  [main] then ends with that
    exit, having run the validation once and without calling
    [simulate]. *)
Theorem validation_stops_at_first_violation (ns : Namespace) :
  check_simulate_args ns = enforce_all rules ns /\
  (forall i r ns1 ns2,
     rules !! i = Some r ->
     enforce_all (take i rules) ns = Returns tt ns1 ->
     violated r ns1 = Returns true ns2 ->
     check_simulate_args ns = SysExit (message r ns2) /\
     (ns !! "subparser_name" = Some (VStr "simulate") ->
      main ns = ([Validate], Exited (message r ns2)))) /\
  (forall msg,
     check_simulate_args ns = SysExit msg ->
     (exists i r ns1 ns2,
        rules !! i = Some r /\
        enforce_all (take i rules) ns = Returns tt ns1 /\
        violated r ns1 = Returns true ns2 /\
        msg = message r ns2) /\
     (ns !! "subparser_name" = Some (VStr "simulate") ->
      main ns = ([Validate], Exited msg))).
Proof.
  assert (forall msg, check_simulate_args ns = SysExit msg ->
            ns !! "subparser_name" = Some (VStr "simulate") ->
            main ns = ([Validate], Exited msg)) as Hmain.
  { intros msg H Hn. unfold Badread.main. rewrite Hn. simpl. by rewrite H. }
  split; [apply check_simulate_args_rules|]. split.
  - intros i r ns1 ns2 Hi Ht Hv.
    assert (check_simulate_args ns = SysExit (message r ns2)) as H.
    { rewrite check_simulate_args_rules. by eapply enforce_all_violated. }
    split; [exact H|by apply Hmain].
  - intros msg H. split; [|by apply Hmain].
    rewrite check_simulate_args_rules in H.
    exact (enforce_all_exit _ _ _ rules_no_exit H).
Qed.

End Properties.

(** ** The sub-parsers *)

Section Parsers.

Variable py_float : string -> option float.
Variable py_int : string -> option Z.

Local Abbreviation parse_argument := (parse_argument py_float py_int).
Local Abbreviation parse_args := (parse_args py_float py_int).
Local Abbreviation parse_command := (parse_command py_float py_int).

Lemma parse_args_cons a parser argv (ns : Namespace) :
  parse_args (a :: parser) argv = Some ns ->
  exists ns0, parse_args parser argv = Some ns0 /\
    match parse_argument a argv with
    | Some (Some v) => ns = <[dest (option_string a) := v]> ns0
    | Some None => ns = ns0
    | None => False
    end.
Proof.
  cbn [Badread.parse_args].
  destruct (parse_argument a argv) as [[v|]|]; [| |discriminate];
    destruct (parse_args parser argv) as [ns0|]; try discriminate;
    intros [= <-]; eauto.
Qed.

(** What the attribute of an optional [store] argument is. *)
Lemma parse_argument_store opt ty default argv :
  parse_argument (add_argument opt (store ty false default)) argv
  = match supplied opt argv with
    | Some raw => Some <$> convert py_float py_int ty raw
    | None => Some (Some default)
    end.
Proof. reflexivity. Qed.

Lemma parse_argument_stores opt ty required default argv :
  parse_argument (add_argument opt (store ty required default)) argv
  <> Some None.
Proof.
  unfold Badread.parse_argument. simpl. destruct (supplied opt argv) as [raw|].
  - by destruct (convert py_float py_int ty raw).
  - by destruct required.
Qed.

Lemma parse_command_model argv :
  parse_command "model" argv
  = (fun ns => <["subparser_name" := VStr "model"]> ns)
      <$> parse_args model_subparser argv.
Proof. reflexivity. Qed.

Ltac next_argument H v P :=
  let ns0 := fresh "ns" in let E := fresh "E" in
  apply parse_args_cons in H as (ns0 & H & E);
  match type of E with
  | match parse_argument ?a ?argv with _ => _ end =>
      destruct (parse_argument a argv) as [[v|]|] eqn:P;
      [subst|try (exfalso; by eapply parse_argument_stores)|done]
  end.

(** C6: in the namespace of the [model] sub-command, [k_size] is 7 and
    [max_alt] is 25 when the command line does not give them. *)
Theorem model_defaults argv (ns : Namespace) :
  parse_command "model" argv = Some ns ->
  (supplied "--k_size" argv = None -> ns !! "k_size" = Some (VInt 7)) /\
  (supplied "--max_alt" argv = None -> ns !! "max_alt" = Some (VInt 25)).
Proof.
  rewrite parse_command_model. intros H.
  apply fmap_Some in H as (ns0 & Hp & ->).
  unfold model_subparser in Hp.
  next_argument Hp reference P1. next_argument Hp reads P2.
  next_argument Hp alignment P3. next_argument Hp k_size P4.
  next_argument Hp max_alignments P5. next_argument Hp max_alt P6.
  simpl. split; intros Hs.
  - rewrite parse_argument_store, Hs in P4. injection P4 as <-. by lookups.
  - rewrite parse_argument_store, Hs in P6. injection P6 as <-. by lookups.
Qed.

(** The attributes of a parsed namespace are destinations of the
    parser's arguments. *)
Lemma parse_args_dom parser argv (ns : Namespace) k :
  parse_args parser argv = Some ns -> is_Some (ns !! k) ->
  k ∈ (fun a => dest (option_string a)) <$> parser.
Proof.
  revert ns. induction parser as [|a parser IH]; intros ns H [v Hv].
  - injection H as <-. by rewrite lookup_empty in Hv.
  - apply parse_args_cons in H as (ns0 & H & E). rewrite fmap_cons.
    destruct (parse_argument a argv) as [[w|]|]; [subst|subst|done].
    + destruct (decide (dest (option_string a) = k)) as [<-|Hne].
      * apply list_elem_of_here.
      * rewrite lookup_insert_ne in Hv by done.
        apply list_elem_of_further. eapply IH; eauto.
    + apply list_elem_of_further. eapply IH; eauto.
Qed.

(** The namespace that the [simulate] sub-parser produces has none of
    the eight derived attributes. *)
Lemma simulate_namespace_fresh argv (ns : Namespace) k :
  parse_command "simulate" argv = Some ns ->
  k ∈ derived_fields -> ns !! k = None.
Proof.
  intros H Hk.
  change (parse_command "simulate" argv)
    with ((fun ns => <["subparser_name" := VStr "simulate"]> ns)
            <$> parse_args simulate_subparser argv) in H.
  apply fmap_Some in H as (ns0 & Hp & ->).
  assert ((fun a => dest (option_string a)) <$> simulate_subparser
          = [ "reference"; "quantity"; "length"; "identity"; "error_model";
              "start_adapter"; "end_adapter"; "start_adapter_seq";
              "end_adapter_seq"; "junk_reads"; "random_reads"; "chimeras";
              "glitches"; "small_plasmid_bias"; "help" ]) as D by reflexivity.
  destruct (<["subparser_name" := VStr "simulate"]> ns0 !! k) as [v|] eqn:E;
    [exfalso|done].
  unfold derived_fields in Hk.
  repeat (apply elem_of_cons in Hk as [->|Hk];
    [rewrite lookup_insert_ne in E by done;
     pose proof (parse_args_dom _ _ _ _ Hp (mk_is_Some _ _ E)) as Hin;
     rewrite D in Hin;
     repeat (apply elem_of_cons in Hin as [Hin|Hin]; [discriminate|]);
     by apply elem_of_nil in Hin|]).
  by apply elem_of_nil in Hk.
Qed.

End Parsers.

(** C10: when [check_simulate_args] returns, every attribute other than
    the eight derived ones is as it was; each derived attribute holds
    the float parsed from its position in [--length], [--identity] or
    [--glitches]; on a namespace that has none of the eight, every
    attribute present before keeps its value; and the namespace of the
    [simulate] sub-parser is such a namespace. *)
Theorem check_simulate_args_frame py_float py_int py_format is_file
    MIN_MEAN_READ_LENGTH MIN_MEAN_READ_IDENTITY (ns ns' : Namespace) :
  check_simulate_args py_float py_format is_file
    MIN_MEAN_READ_LENGTH MIN_MEAN_READ_IDENTITY ns = Returns tt ns' ->
  (forall k, k ∉ derived_fields -> ns' !! k = ns !! k) /\
  (forall field source i, (field, (source, i)) ∈ derivation ->
     exists f, parsed_from py_float ns source i = Some (VFloat f) /\
               ns' !! field = Some (VFloat f)) /\
  ((forall k, k ∈ derived_fields -> ns !! k = None) ->
   forall k v, ns !! k = Some v -> ns' !! k = Some v) /\
  (forall argv, parse_command py_float py_int "simulate" argv = Some ns ->
   forall k v, ns !! k = Some v -> ns' !! k = Some v).
Proof.
  intros H.
  destruct (accepted_frame _ _ _ _ _ _ _ H) as (F & D & P).
  split; [exact F|]. split; [exact D|]. split; [exact P|].
  intros argv Hp. apply P. intros k Hk.
  exact (simulate_namespace_fresh _ _ _ _ _ Hp Hk).
Qed.

(** ** Runs of the program on concrete command lines *)

Ltac compute_run := vm_compute; reflexivity.

Ltac concrete_no_nan :=
  let name := fresh "name" in let v := fresh "v" in
  let Hin := fresh "Hin" in let Hv := fresh "Hv" in
  intros name v Hin Hv;
  repeat (apply elem_of_cons in Hin as [->|Hin];
          [vm_compute in Hv; injection Hv as <-; reflexivity|]);
  by apply elem_of_nil in Hin.

(** C1, counterexample: [--chimeras nan] passes the validation, and
    [chimeras <= 50] is false of the namespace it leaves. *)
Lemma nan_chimeras_accepted :
  run_check (simulate_args [("--chimeras", "nan")])
  = Returns tt (validated (simulate_args [("--chimeras", "nan")])) /\
  validated (simulate_args [("--chimeras", "nan")]) !! "chimeras"
  = Some (VFloat Float64.nan) /\
  py_le (VFloat Float64.nan) (VInt 50) = Ok false /\
  ~ rates_within_bounds (validated (simulate_args [("--chimeras", "nan")])).
Proof.
  split; [compute_run|]. split; [compute_run|]. split; [reflexivity|].
  intros (c & j & r & t & sd & Hc & _ & _ & _ & _ & Hle & _).
  vm_compute in Hc. injection Hc as <-. discriminate.
Qed.

Lemma rates_validated_witness :
  rates_within_bounds (validated (simulate_args [])) /\
  terminates_with_error (run_check (simulate_args [("--chimeras", "60")])).
Proof.
  split.
  - apply (proj1 (rates_validated CPython.float_of_string CPython.format
                    no_files (VInt 100) (VInt 50) (simulate_args []))).
    + compute_run.
    + concrete_no_nan.
  - apply (proj2 (rates_validated CPython.float_of_string CPython.format
                    no_files (VInt 100) (VInt 50)
                    (simulate_args [("--chimeras", "60")]))).
    left. eexists. split; compute_run.
Defined.

Lemma error_model_selector_witness :
  check_error_model CPython.format no_files
    (simulate_args [("--error_model", "Perfect")])
  = Returns tt (simulate_args [("--error_model", "Perfect")]) /\
  run_check (simulate_args [("--error_model", "nanopore.model")])
  = SysExit (not_a_file "nanopore.model").
Proof.
  split.
  - apply (proj1 (error_model_selector CPython.float_of_string CPython.format
                    no_files (VInt 100) (VInt 50)
                    (simulate_args [("--error_model", "Perfect")]) "Perfect"
                    ltac:(compute_run))).
    reflexivity.
  - apply (proj2 (proj2 (error_model_selector CPython.float_of_string
                    CPython.format no_files (VInt 100) (VInt 50)
                    (simulate_args [("--error_model", "nanopore.model")])
                    "nanopore.model" ltac:(compute_run)))).
    reflexivity.
Defined.

(** C3, counterexample: [--identity nan,nan,nan] passes the validation,
    and [mean_identity <= max_identity] is false of the namespace it
    leaves. *)
Lemma nan_identity_accepted :
  run_check (simulate_args [("--identity", "nan,nan,nan")])
  = Returns tt (validated (simulate_args [("--identity", "nan,nan,nan")])) /\
  validated (simulate_args [("--identity", "nan,nan,nan")]) !! "mean_identity"
  = Some (VFloat Float64.nan) /\
  validated (simulate_args [("--identity", "nan,nan,nan")]) !! "max_identity"
  = Some (VFloat Float64.nan) /\
  py_le (VFloat Float64.nan) (VFloat Float64.nan) = Ok false /\
  ~ identity_within_bounds (VInt 50)
      (validated (simulate_args [("--identity", "nan,nan,nan")])).
Proof.
  split; [compute_run|]. split; [compute_run|]. split; [compute_run|].
  split; [reflexivity|].
  intros (m & x & z & Hm & Hx & _ & _ & Hle & _).
  vm_compute in Hm. injection Hm as <-. vm_compute in Hx. injection Hx as <-.
  discriminate.
Qed.

Lemma identity_validated_witness :
  identity_at_most_100 (validated (simulate_args [])) /\
  identity_within_bounds (VInt 50) (validated (simulate_args [])).
Proof.
  destruct (identity_validated CPython.float_of_string CPython.format no_files
              (VInt 100) (VInt 50) (simulate_args [])
              (validated (simulate_args [])) ltac:(compute_run)) as [H1 H2].
  split; [exact H1|]. apply H2; [concrete_no_nan|reflexivity].
Defined.

Lemma unparsable_parameters_exit_witness :
  run_check (simulate_args [("--length", "10000")])
  = SysExit "Error: could not parse --length values" /\
  run_check (simulate_args [("--identity", "85,ninety,4")])
  = SysExit "Error: could not parse --identity values" /\
  run_check (simulate_args [("--glitches", "")])
  = SysExit "Error: could not parse --glitches values".
Proof.
  split; [|split].
  - eapply (proj1 (unparsable_parameters_exit CPython.float_of_string
                     CPython.format no_files (VInt 100) (VInt 50) _ "10000"));
      compute_run.
  - eapply (proj1 (proj2 (unparsable_parameters_exit CPython.float_of_string
                     CPython.format no_files (VInt 100) (VInt 50) _ "85,ninety,4")));
      compute_run.
  - eapply (proj2 (proj2 (unparsable_parameters_exit CPython.float_of_string
                     CPython.format no_files (VInt 100) (VInt 50) _ "")));
      compute_run.
Defined.

Lemma glitch_rate_zero_accepted_witness :
  exists args',
    run_check (simulate_args [("--glitches", "0,50,50")]) = Returns tt args' /\
    args' !! "glitch_rate" = Some (VFloat Float64.zero) /\
    run_check (simulate_args [("--glitches", "-1,50,50")])
    = SysExit "Error: --glitches must contain non-negative values".
Proof.
  eexists. split; [|split].
  - eapply (proj1 (glitch_rate_zero_accepted CPython.float_of_string
                     CPython.format no_files (VInt 100) (VInt 50)
                     (simulate_args [("--glitches", "0,50,50")]) "0,50,50"
                     _ _ _ _ ltac:(compute_run) ltac:(compute_run)));
      compute_run.
  - compute_run.
  - eapply (proj2 (glitch_rate_zero_accepted CPython.float_of_string
                     CPython.format no_files (VInt 100) (VInt 50)
                     (simulate_args [("--glitches", "-1,50,50")]) "-1,50,50"
                     _ _ _ _ ltac:(compute_run) ltac:(compute_run))).
    + left. compute_run.
    + compute_run.
Defined.

Lemma model_defaults_witness :
  command_line "model"
    [("--reference", "ref.fasta"); ("--reads", "reads.fastq");
     ("--alignment", "reads.paf")] !! "k_size" = Some (VInt 7) /\
  command_line "model"
    [("--reference", "ref.fasta"); ("--reads", "reads.fastq");
     ("--alignment", "reads.paf")] !! "max_alt" = Some (VInt 25).
Proof.
  destruct (model_defaults CPython.float_of_string CPython.int_of_string
              [("--reference", "ref.fasta"); ("--reads", "reads.fastq");
               ("--alignment", "reads.paf")]
              (command_line "model"
                 [("--reference", "ref.fasta"); ("--reads", "reads.fastq");
                  ("--alignment", "reads.paf")])
              ltac:(compute_run)) as [K A].
  split; [apply K|apply A]; reflexivity.
Defined.

Lemma validation_stops_at_first_violation_witness :
  run_check (simulate_args [("--chimeras", "60"); ("--junk_reads", "200")])
  = SysExit "Error: --chimeras cannot be greater than 50" /\
  main CPython.float_of_string CPython.format no_files (VInt 100) (VInt 50)
    (simulate_args [("--chimeras", "60"); ("--junk_reads", "200")])
  = ([Validate], Exited "Error: --chimeras cannot be greater than 50").
Proof.
  destruct (proj1 (proj2 (validation_stops_at_first_violation
              CPython.float_of_string CPython.format no_files
              (VInt 100) (VInt 50)
              (simulate_args [("--chimeras", "60"); ("--junk_reads", "200")])))
            1%nat
            (test "chimeras" (fun v => py_gt v (VInt 50))
               "Error: --chimeras cannot be greater than 50")
            (simulate_args [("--chimeras", "60"); ("--junk_reads", "200")])
            (simulate_args [("--chimeras", "60"); ("--junk_reads", "200")])
            eq_refl ltac:(compute_run) ltac:(compute_run)) as [E M].
  split; [exact E|]. apply M. compute_run.
Defined.

Lemma boundary_values_rejected_witness :
  run_check (simulate_args [("--length", "100,50")])
  = SysExit "Error: mean read length must be at least 100" /\
  run_check (simulate_args [("--identity", "50,95,4")])
  = SysExit "Error: mean read identity must be at least 50" /\
  run_check (simulate_args [("--identity", "85,50,4")])
  = SysExit "Error: max read identity must be at least 50".
Proof.
  split; [|split].
  - eapply (proj1 (boundary_values_rejected CPython.float_of_string
                     CPython.format no_files (VInt 100) (VInt 50)
                     (simulate_args [("--length", "100,50")]) "100,50")
              _ _ _ ltac:(compute_run) ltac:(compute_run) ltac:(compute_run)).
    compute_run.
  - eapply (proj1 (proj2 (boundary_values_rejected CPython.float_of_string
                     CPython.format no_files (VInt 100) (VInt 50)
                     (simulate_args [("--identity", "50,95,4")]) "50,95,4")
              _ _ _ _ ltac:(compute_run) ltac:(compute_run))
              ltac:(compute_run)); compute_run.
  - eapply (proj2 (proj2 (boundary_values_rejected CPython.float_of_string
                     CPython.format no_files (VInt 100) (VInt 50)
                     (simulate_args [("--identity", "85,50,4")]) "85,50,4")
              _ _ _ _ ltac:(compute_run) ltac:(compute_run))
              ltac:(compute_run)); compute_run.
Defined.

(** C9: the validation puts no lower bound on the three percentage
    arguments.  The command line
    [--chimeras -5 --junk_reads -1 --random_reads -2.5] is parsed to three
    negative numbers, and [check_simulate_args] returns on it. *)
Theorem negative_rates_accepted :
  exists c j r args',
    simulate_args [("--chimeras", "-5"); ("--junk_reads", "-1");
                   ("--random_reads", "-2.5")] !! "chimeras" = Some c /\
    simulate_args [("--chimeras", "-5"); ("--junk_reads", "-1");
                   ("--random_reads", "-2.5")] !! "junk_reads" = Some j /\
    simulate_args [("--chimeras", "-5"); ("--junk_reads", "-1");
                   ("--random_reads", "-2.5")] !! "random_reads" = Some r /\
    py_lt c (VInt 0) = Ok true /\
    py_lt j (VInt 0) = Ok true /\
    py_lt r (VInt 0) = Ok true /\
    run_check (simulate_args [("--chimeras", "-5"); ("--junk_reads", "-1");
                              ("--random_reads", "-2.5")])
    = Returns tt args' /\
    args' !! "chimeras" = Some c /\
    args' !! "junk_reads" = Some j /\
    args' !! "random_reads" = Some r.
Proof.
  do 4 eexists. repeat split; compute_run.
Qed.

Lemma check_simulate_args_frame_witness :
  validated (simulate_args []) !! "quantity" = Some (VStr "50x") /\
  validated (simulate_args []) !! "chimeras" = Some (VInt 1) /\
  validated (simulate_args []) !! "length" = Some (VStr "10000,9000") /\
  exists f,
    parsed_from CPython.float_of_string (simulate_args []) "length" 0
    = Some (VFloat f) /\
    validated (simulate_args []) !! "mean_frag_length" = Some (VFloat f).
Proof.
  destruct (check_simulate_args_frame CPython.float_of_string
              CPython.int_of_string CPython.format
              no_files (VInt 100) (VInt 50) (simulate_args [])
              (validated (simulate_args [])) ltac:(compute_run))
    as (F & D & P & A).
  split; [|split; [|split]].
  - rewrite F; [compute_run|].
    intros Hin. unfold derived_fields in Hin.
    repeat (apply elem_of_cons in Hin as [Hin|Hin]; [discriminate|]).
    by apply elem_of_nil in Hin.
  - apply P; [|compute_run].
    intros k Hin. unfold derived_fields in Hin.
    repeat (apply elem_of_cons in Hin as [->|Hin]; [compute_run|]).
    by apply elem_of_nil in Hin.
  - apply (A (required ++ [])%list); compute_run.
  - apply D. unfold derivation. apply list_elem_of_here.
Defined.

(** * Further properties of the validation *)

Ltac accepted_inv H :=
  destruct H as
    [sel c j r t sl x0 x1 lrest si i0 i1 i2 irest sg g0 g1 g2 grest
       Esel Hsel Ec Ej Er Tc Tj Tr Tadd Tsum El Pl Tm Tsd
       Ei Pi Ti0 Ti1 Tl0 Tl1 Tmx Tsh Eg Pg G0 G1 G2].

(** A string literal is not in a list of other literals. *)
Ltac not_in_list :=
  let Hin := fresh "Hin" in
  intros Hin;
  repeat (apply elem_of_cons in Hin as [Hin|Hin]; [discriminate|]);
  by apply elem_of_nil in Hin.

Ltac in_list :=
  repeat first [apply list_elem_of_here | apply list_elem_of_further].

Section Validation.

Variable py_float : string -> option float.
Variable py_format : value -> string.
Variable is_file : string -> bool.
Variable MINL MINI : value.

Local Abbreviation parameters := (parameters py_float).
Local Abbreviation check_length := (check_length py_float py_format MINL).
Local Abbreviation check_identity := (check_identity py_float py_format MINI).
Local Abbreviation check_glitches := (check_glitches py_float).
Local Abbreviation check_error_model := (check_error_model py_format is_file).
Local Abbreviation check_simulate_args :=
  (check_simulate_args py_float py_format is_file MINL MINI).
Local Abbreviation rules := (rules py_float py_format is_file MINL MINI).
Local Abbreviation accepted := (accepted py_float is_file MINL MINI).
Local Abbreviation main := (main py_float py_format is_file MINL MINI).

(** The eight assignments, on a namespace. *)
Local Abbreviation assigned x0 x1 i0 i1 i2 g0 g1 g2 ns :=
  (<["glitch_skip" := VFloat g2]> (<["glitch_size" := VFloat g1]>
    (<["glitch_rate" := VFloat g0]> (<["identity_shape" := VFloat i2]>
      (<["max_identity" := VFloat i1]> (<["mean_identity" := VFloat i0]>
        (<["frag_length_stdev" := VFloat x1]>
          (<["mean_frag_length" := VFloat x0]> ns)))))))).

(** X1: Validating a validated namespace changes nothing: the second call
    returns, and leaves the namespace of the first. *)
Theorem check_simulate_args_idempotent (ns ns' : Namespace) :
  check_simulate_args ns = Returns tt ns' ->
  check_simulate_args ns' = Returns tt ns'.
Proof.
  intros H. apply check_simulate_args_accepted in H. accepted_inv H.
  apply check_simulate_args_accepted.
  set (ns' := assigned x0 x1 i0 i1 i2 g0 g1 g2 ns).
  assert (assigned x0 x1 i0 i1 i2 g0 g1 g2 ns' = ns') as Hid.
  { repeat rewrite insert_id by (unfold ns'; by lookups). reflexivity. }
  rewrite <- Hid at 2.
  eapply Accepted; unfold ns'; lookups; eassumption.
Qed.

(** ** What the exit messages look like *)

(** X2: Every message [check_simulate_args] exits with begins with
    [Error: ]. *)
Theorem exit_message_prefix (ns : Namespace) msg :
  check_simulate_args ns = SysExit msg ->
  exists rest, msg = "Error: " +:+ rest.
Proof.
  intros H. rewrite check_simulate_args_rules in H.
  apply (enforce_all_exit _ _ _ (rules_no_exit _ _ _ _ _)) in H
    as (i & r & ns1 & ns2 & Hi & _ & _ & ->).
  unfold Badread.rules in Hi.
  do 17 (destruct i as [|i]; [injection Hi as <-; eexists; reflexivity|]).
  discriminate.
Qed.

(** ** Attributes the validation needs *)

(** X3: Without one of the seven attributes it reads, [check_simulate_args]
    does not return; without [error_model], the first it reads, it
    raises [AttributeError] and leaves the namespace as it is. *)
Theorem missing_attribute (ns : Namespace) k :
  k ∈ inspected -> ns !! k = None ->
  terminates_with_error (check_simulate_args ns) /\
  (k = "error_model" -> check_simulate_args ns = Raises AttributeError ns).
Proof.
  intros Hk Hn. split.
  - destruct (check_simulate_args ns) as [[] ns'| |] eqn:H; [|done..].
    apply check_simulate_args_accepted in H. accepted_inv H.
    unfold inspected in Hk.
    repeat (apply elem_of_cons in Hk as [->|Hk]; [congruence|]).
    by apply elem_of_nil in Hk.
  - intros ->. unfold Badread.check_simulate_args, Badread.check_error_model.
    run. by rewrite Hn.
Qed.

(** ** One parameter at a time *)

Lemma assigned_commute x0 x1 i0 i1 i2 g0 g1 g2 (ns : Namespace) k v :
  k ∉ derived_fields ->
  assigned x0 x1 i0 i1 i2 g0 g1 g2 (<[k := v]> ns)
  = <[k := v]> (assigned x0 x1 i0 i1 i2 g0 g1 g2 ns).
Proof.
  intros Hk. apply derived_fields_ne in Hk as (?&?&?&?&?&?&?&?).
  by repeat rewrite (insert_insert_ne _ k) by done.
Qed.

Lemma inspected_not_derived k : k ∈ inspected -> k ∉ derived_fields.
Proof.
  unfold inspected. intros Hk.
  repeat (apply elem_of_cons in Hk as [->|Hk];
          [unfold derived_fields; not_in_list|]).
  by apply elem_of_nil in Hk.
Qed.

(** X4: The test of [chimeras] stands alone: in a namespace that passes the
    validation, [chimeras] can be replaced by a value [v], and the
    validation passes again, with the same derived attributes, exactly
    when [v > 50] is false: for 50 itself, for a negative number, for a
    NaN. *)
Theorem chimeras_checked_alone (ns ns' : Namespace) v :
  check_simulate_args ns = Returns tt ns' ->
  check_simulate_args (<["chimeras" := v]> ns)
  = Returns tt (<["chimeras" := v]> ns')
  <-> py_gt v (VInt 50) = Ok false.
Proof.
  intros H. split.
  - intros Hv. apply check_simulate_args_accepted in Hv. accepted_inv Hv.
    rewrite lookup_insert_eq in Ec. by injection Ec as <-.
  - intros Hv. apply check_simulate_args_accepted in H. accepted_inv H.
    apply check_simulate_args_accepted.
    rewrite <- assigned_commute
      by (apply inspected_not_derived; in_list).
    eapply Accepted; lookups; first [eassumption|reflexivity].
Qed.

(** X5: Values after the ones a parameter string needs are converted and
    then ignored: when the validation passes, it passes again, with the
    same derived attributes, after numbers are added at the end of
    [--length], [--identity] or [--glitches]. *)
Theorem surplus_values_ignored (ns ns' : Namespace) k s fs extra s2 :
  check_simulate_args ns = Returns tt ns' ->
  k ∈ ["length"; "identity"; "glitches"] ->
  ns !! k = Some (VStr s) ->
  parameters s = Ok fs ->
  parameters s2 = Ok (fs ++ extra)%list ->
  check_simulate_args (<[k := VStr s2]> ns)
  = Returns tt (<[k := VStr s2]> ns').
Proof.
  intros H Hk Es Ps Ps2. apply check_simulate_args_accepted in H.
  accepted_inv H. apply check_simulate_args_accepted.
  repeat (apply elem_of_cons in Hk as [->|Hk]);
    [..|by apply elem_of_nil in Hk];
    (rewrite <- assigned_commute
       by (apply inspected_not_derived; in_list)).
  - rewrite El in Es. injection Es as <-. rewrite Pl in Ps. injection Ps as <-.
    simpl in Ps2. eapply Accepted; lookups; first [eassumption|reflexivity].
  - rewrite Ei in Es. injection Es as <-. rewrite Pi in Ps. injection Ps as <-.
    simpl in Ps2. eapply Accepted; lookups; first [eassumption|reflexivity].
  - rewrite Eg in Es. injection Es as <-. rewrite Pg in Ps. injection Ps as <-.
    simpl in Ps2. eapply Accepted; lookups; first [eassumption|reflexivity].
Qed.

(** ** Empty fields *)

Lemma parameters_empty_field s :
  py_float "" = None -> "" ∈ split "," s -> parameters s = Err ValueError.
Proof.
  intros Hf. unfold Badread.parameters. generalize (split "," s).
  intros l Hin. induction l as [|x l IH]; [by apply elem_of_nil in Hin|].
  apply elem_of_cons in Hin as [<-|Hin]; simpl.
  - unfold float_of_str at 1. by rewrite Hf.
  - unfold float_of_str at 1. destruct (py_float x); [|done].
    simpl. by rewrite (IH Hin).
Qed.

(** X6: When [float] refuses the empty string, a parameter string with an
    empty field (it is empty, starts or ends with a comma, or has two
    commas in a row) makes each of the three parsing paragraphs exit
    with its "could not parse" message. *)
Theorem empty_field_rejected (ns : Namespace) s :
  py_float "" = None -> "" ∈ split "," s ->
  (ns !! "length" = Some (VStr s) ->
   check_length ns = SysExit "Error: could not parse --length values") /\
  (ns !! "identity" = Some (VStr s) ->
   check_identity ns = SysExit "Error: could not parse --identity values") /\
  (ns !! "glitches" = Some (VStr s) ->
   check_glitches ns = SysExit "Error: could not parse --glitches values").
Proof.
  intros Hf Hin. pose proof (parameters_empty_field _ Hf Hin) as P.
  split; [|split]; intros E.
  - by rewrite (check_length_eq _ _ _ _ _ E), P.
  - by rewrite (check_identity_eq _ _ _ _ _ E), P.
  - by rewrite (check_glitches_eq _ _ _ E), P.
Qed.

(** ** Attributes the validation does not look at *)

Lemma ignores_ret {A} k (a : A) : ignores k (ret a).
Proof. by intros v ns. Qed.

Lemma ignores_sys_exit {A} k msg : ignores k (@sys_exit A msg).
Proof. by intros v ns. Qed.

Lemma ignores_eval {A} k (r : res A) : ignores k (eval r).
Proof. intros v ns. unfold eval. by destruct r. Qed.

Lemma ignores_getattr k name : k <> name -> ignores k (getattr name).
Proof.
  intros Hne v ns. unfold getattr. rewrite lookup_insert_ne by done.
  by destruct (ns !! name).
Qed.

Lemma ignores_setattr k name x : k <> name -> ignores k (setattr name x).
Proof.
  intros Hne v ns. unfold setattr. simpl. by rewrite insert_insert_ne.
Qed.

Lemma ignores_bind {A B} k (m : M A) (f : A -> M B) :
  ignores k m -> (forall a, ignores k (f a)) -> ignores k (bind m f).
Proof.
  intros Hm Hf v ns. unfold bind. rewrite Hm.
  destruct (m ns) as [a ns1| |]; simpl; [apply Hf|done..].
Qed.

Lemma ignores_when k c body : ignores k body -> ignores k (when c body).
Proof. intros H. destruct c; [exact H|apply ignores_ret]. Qed.

Lemma ignores_if {A} k (c : bool) (m1 m2 : M A) :
  ignores k m1 -> ignores k m2 -> ignores k (if c then m1 else m2).
Proof. by destruct c. Qed.

Lemma ignores_try_except k body handler :
  ignores k body -> ignores k handler -> ignores k (try_except body handler).
Proof.
  intros Hb Hh v ns. unfold try_except. rewrite Hb.
  destruct (body ns) as [a ns1| |[] ns1]; simpl; try done; apply Hh.
Qed.

Ltac solve_ignores :=
  repeat first
    [ apply ignores_ret
    | apply ignores_sys_exit
    | apply ignores_eval
    | apply ignores_getattr; assumption
    | apply ignores_setattr; assumption
    | apply ignores_when
    | apply ignores_try_except
    | apply ignores_if
    | apply ignores_bind; [|intros ?] ].

(** X7: The validation looks at seven attributes of the parser and assigns
    eight: whatever another attribute holds ([reference], [quantity],
    the adapters, ...), be it there or not, the call takes the same
    course, and leaves that attribute alone. *)
Theorem other_attributes_ignored k v (ns : Namespace) :
  k ∉ inspected -> k ∉ derived_fields ->
  check_simulate_args (<[k := v]> ns)
  = outcome_map (insert k v) (check_simulate_args ns).
Proof.
  intros Hi Hd. revert v ns. change (ignores k check_simulate_args).
  apply derived_fields_ne in Hd as (?&?&?&?&?&?&?&?).
  unfold inspected in Hi. rewrite !not_elem_of_cons in Hi.
  destruct Hi as (?&?&?&?&?&?&?&_).
  unfold Badread.check_simulate_args, Badread.check_error_model,
    Badread.check_problem_rates, Badread.check_length, Badread.parse_length,
    Badread.check_identity, Badread.parse_identity, Badread.check_glitches,
    Badread.parse_glitches, any_glitch_negative, float_list.
  solve_ignores.
Qed.

(** ** What [main] runs *)

(** X8: [main] calls at most one entry point, and then finishes: [simulate]
    after a validation that returned, on the namespace the validation
    left; the other two on the namespace as parsed, with no
    validation. *)
Theorem entry_point_invoked (args : Namespace) f ns' :
  Invoke f ns' ∈ (main args).1 ->
  (main args).2 = Finished /\
  match f with
  | simulate =>
      check_simulate_args args = Returns tt ns' /\
      (main args).1 = [Validate; Invoke simulate ns']
  | _ => ns' = args /\ (main args).1 = [Invoke f args]
  end.
Proof.
  unfold Badread.main. destruct (args !! "subparser_name") as [name|];
    [|intros Hin; by apply elem_of_nil in Hin].
  destruct (is_command "simulate" name).
  - destruct (check_simulate_args args) as [[] ns1|msg|e ns1]; simpl; intros Hin.
    + apply elem_of_cons in Hin as [Hin|Hin]; [discriminate|].
      apply elem_of_cons in Hin as [Hin|Hin]; [|by apply elem_of_nil in Hin].
      by injection Hin as -> ->.
    + apply elem_of_cons in Hin as [Hin|Hin]; [discriminate|].
      by apply elem_of_nil in Hin.
    + apply elem_of_cons in Hin as [Hin|Hin]; [discriminate|].
      by apply elem_of_nil in Hin.
  - destruct (is_command "model" name); [|destruct (is_command "plot" name)];
      simpl; intros Hin.
    + apply elem_of_cons in Hin as [Hin|Hin]; [|by apply elem_of_nil in Hin].
      by injection Hin as -> ->.
    + apply elem_of_cons in Hin as [Hin|Hin]; [|by apply elem_of_nil in Hin].
      by injection Hin as -> ->.
    + by apply elem_of_nil in Hin.
Qed.

(** ** No exception out of a well-typed namespace *)

Lemma py_compare_defined a b :
  is_number a = true -> is_number b = true -> exists c, py_compare a b = Ok c.
Proof.
  unfold is_number, py_compare.
  destruct (as_number a); [|done]. destruct (as_number b); [|done]. eauto.
Qed.

Lemma py_gt_defined a b :
  is_number a = true -> is_number b = true -> exists c, py_gt a b = Ok c.
Proof.
  intros Ha Hb. destruct (py_compare_defined a b Ha Hb) as [c E].
  unfold py_gt. rewrite E. simpl. eauto.
Qed.

Lemma py_le_defined a b :
  is_number a = true -> is_number b = true -> exists c, py_le a b = Ok c.
Proof.
  intros Ha Hb. destruct (py_compare_defined a b Ha Hb) as [c E].
  unfold py_le. rewrite E. simpl. eauto.
Qed.

Lemma py_lt_defined a b :
  is_number a = true -> is_number b = true -> exists c, py_lt a b = Ok c.
Proof.
  intros Ha Hb. destruct (py_compare_defined a b Ha Hb) as [c E].
  unfold py_lt. rewrite E. simpl. eauto.
Qed.

Lemma percentage_number v : percentage v = true -> is_number v = true.
Proof. by destruct v. Qed.

Lemma py_add_defined a b :
  percentage a = true -> percentage b = true ->
  exists t, py_add a b = Ok t /\ is_number t = true.
Proof.
  destruct a as [| |x|f|], b as [| |y|g|]; try done; simpl; intros Ha Hb.
  - eauto.
  - destruct (float_of_int x); [|done]. simpl. eauto.
  - destruct (float_of_int y); [|done]. simpl. eauto.
  - eauto.
Qed.

(** On a namespace whose [error_model], [length], [identity] and
    [glitches] are strings and whose three percentages are floats (or
    ints that convert to a float), with numbers for the two constants of
    [settings], [check_simulate_args] raises nothing: it returns or it
    exits. *)
Lemma well_typed_returns_or_exits (ns : Namespace) sel c j r sl si sg :
  ns !! "error_model" = Some (VStr sel) ->
  ns !! "chimeras" = Some c -> percentage c = true ->
  ns !! "junk_reads" = Some j -> percentage j = true ->
  ns !! "random_reads" = Some r -> percentage r = true ->
  ns !! "length" = Some (VStr sl) ->
  ns !! "identity" = Some (VStr si) ->
  ns !! "glitches" = Some (VStr sg) ->
  is_number MINL = true -> is_number MINI = true ->
  returns_or_exits (check_simulate_args ns).
Proof.
  intros Esel Ec Hc Ej Hj Er Hr El Ei Eg HL HI.
  pose proof (percentage_number _ Hc). pose proof (percentage_number _ Hj).
  pose proof (percentage_number _ Hr).
  unfold Badread.check_simulate_args, bind.
  rewrite (check_error_model_eq _ _ _ _ Esel).
  destruct (selector_ok is_file sel); [|done].
  rewrite (check_problem_rates_eq _ _ _ _ Ec Ej Er).
  destruct (py_gt_defined c (VInt 50)) as [b1 ->]; [done..|].
  destruct b1; [done|].
  destruct (py_gt_defined j (VInt 100)) as [b2 ->]; [done..|].
  destruct b2; [done|].
  destruct (py_gt_defined r (VInt 100)) as [b3 ->]; [done..|].
  destruct b3; [done|].
  destruct (py_add_defined j r Hj Hr) as (t & -> & Ht).
  destruct (py_gt_defined t (VInt 100)) as [b4 ->]; [done..|].
  destruct b4; [done|].
  rewrite (check_length_eq _ _ _ _ _ El).
  destruct (parameters sl) as [[|x0 [|x1 lrest]]|]; try done. cbv zeta.
  destruct (py_le_defined (VFloat x0) MINL) as [b5 ->]; [done..|].
  destruct b5; [done|].
  destruct (py_lt_defined (VFloat x1) (VInt 0)) as [b6 ->]; [done..|].
  destruct b6; [done|].
  erewrite check_identity_eq by (lookups; exact Ei).
  destruct (parameters si) as [[|i0 [|i1 [|i2 irest]]]|]; try done. cbv zeta.
  destruct (py_gt_defined (VFloat i0) (VFloat (Float64.of_Z 100)))
    as [b7 ->]; [done..|].
  destruct b7; [done|].
  destruct (py_gt_defined (VFloat i1) (VFloat (Float64.of_Z 100)))
    as [b8 ->]; [done..|].
  destruct b8; [done|].
  destruct (py_le_defined (VFloat i0) MINI) as [b9 ->]; [done..|].
  destruct b9; [done|].
  destruct (py_le_defined (VFloat i1) MINI) as [b10 ->]; [done..|].
  destruct b10; [done|].
  destruct (py_gt_defined (VFloat i0) (VFloat i1)) as [b11 ->]; [done..|].
  destruct b11; [done|].
  destruct (py_le_defined (VFloat i2) (VFloat Float64.zero))
    as [b12 ->]; [done..|].
  destruct b12; [done|].
  erewrite check_glitches_eq by (lookups; exact Eg).
  destruct (parameters sg) as [[|g0 [|g1 [|g2 grest]]]|]; try done.
  by destruct (lt0 g0 || lt0 g1 || lt0 g2).
Qed.

End Validation.

(** * Properties of the parsers and of [main] after them *)

Ltac next_arg H v P :=
  let ns0 := fresh "ns" in let E := fresh "E" in
  apply parse_args_cons in H as (ns0 & H & E);
  match type of E with
  | match Badread.parse_argument ?f ?i ?a ?argv with _ => _ end =>
      destruct (Badread.parse_argument f i a argv) as [[v|]|] eqn:P;
      [subst|first [discriminate P|exfalso; by eapply parse_argument_stores]|done]
  end.

Section CommandLine.

Variable py_float : string -> option float.
Variable py_int : string -> option Z.
Variable py_format : value -> string.
Variable is_file : string -> bool.
Variable MINL MINI : value.

Local Abbreviation convert := (convert py_float py_int).
Local Abbreviation parse_argument := (parse_argument py_float py_int).
Local Abbreviation parse_args := (parse_args py_float py_int).
Local Abbreviation parse_command := (parse_command py_float py_int).
Local Abbreviation check_simulate_args :=
  (check_simulate_args py_float py_format is_file MINL MINI).
Local Abbreviation main := (main py_float py_format is_file MINL MINI).

Lemma parse_command_Some command argv (ns : Namespace) :
  parse_command command argv = Some ns ->
  exists parser ns0,
    (command, parser) ∈ subparsers /\
    parse_args parser argv = Some ns0 /\
    ns = <["subparser_name" := VStr command]> ns0.
Proof.
  unfold Badread.parse_command.
  destruct (list_find _ subparsers) as [[i [c parser]]|] eqn:E; [|done].
  apply list_find_Some in E as (Hl & HP & _).
  apply bool_decide_unpack in HP. simpl in HP. subst c.
  intros H. apply fmap_Some in H as (ns0 & Hp & ->).
  exists parser, ns0. split; [|done]. by eapply list_elem_of_lookup_2.
Qed.

(** ** The namespace of [badread simulate] *)

Lemma parse_command_simulate argv :
  parse_command "simulate" argv
  = (fun ns => <["subparser_name" := VStr "simulate"]> ns)
      <$> parse_args simulate_subparser argv.
Proof. reflexivity. Qed.

Lemma parse_command_plot argv :
  parse_command "plot" argv
  = (fun ns => <["subparser_name" := VStr "plot"]> ns)
      <$> parse_args plot_subparser argv.
Proof. reflexivity. Qed.

(** The last argument of each parser is [--help], which stores nothing. *)
Lemma parse_args_help argv (ns : Namespace) :
  parse_args [add_argument "--help" help_action] argv = Some ns -> ns = ∅.
Proof. simpl. by intros [= <-]. Qed.

Ltac simulate_namespace H :=
  rewrite parse_command_simulate in H;
  (let ns0 := fresh "ns" in apply fmap_Some in H as (ns0 & H & ->));
  unfold simulate_subparser in H;
  (let v := fresh "reference" in let P := fresh "P1" in next_arg H v P);
  (let v := fresh "quantity" in let P := fresh "P2" in next_arg H v P);
  (let v := fresh "length" in let P := fresh "P3" in next_arg H v P);
  (let v := fresh "identity" in let P := fresh "P4" in next_arg H v P);
  (let v := fresh "error_model" in let P := fresh "P5" in next_arg H v P);
  (let v := fresh "start_adapter" in let P := fresh "P6" in next_arg H v P);
  (let v := fresh "end_adapter" in let P := fresh "P7" in next_arg H v P);
  (let v := fresh "start_adapter_seq" in let P := fresh "P8" in next_arg H v P);
  (let v := fresh "end_adapter_seq" in let P := fresh "P9" in next_arg H v P);
  (let v := fresh "junk_reads" in let P := fresh "P10" in next_arg H v P);
  (let v := fresh "random_reads" in let P := fresh "P11" in next_arg H v P);
  (let v := fresh "chimeras" in let P := fresh "P12" in next_arg H v P);
  (let v := fresh "glitches" in let P := fresh "P13" in next_arg H v P);
  (let v := fresh "small_plasmid_bias" in let P := fresh "P14" in next_arg H v P);
  apply parse_args_help in H; subst; cbn [dest option_string].

(** X10: The namespace of [badread simulate] has the name of the command and
    one attribute for each argument but [--help], and no other. *)
Theorem simulate_namespace_attributes argv (ns : Namespace) k :
  parse_command "simulate" argv = Some ns ->
  is_Some (ns !! k) <-> k ∈ simulate_attributes.
Proof.
  clear py_format is_file MINL MINI. intros H. simulate_namespace H.
  rewrite !lookup_insert_is_Some', lookup_empty, is_Some_alt.
  unfold simulate_attributes. rewrite !elem_of_cons, elem_of_nil.
  naive_solver.
Qed.

Lemma float_argument opt argv v :
  parse_argument (add_argument opt (store type_float false (VInt 1))) argv
  = Some (Some v) ->
  percentage v = true.
Proof.
  unfold Badread.parse_argument. simpl. destruct (supplied opt argv) as [raw|].
  - destruct (py_float raw); simpl; [|done]. by intros [= <-].
  - by intros [= <-].
Qed.

Lemma str_argument opt required d argv v :
  parse_argument (add_argument opt (store type_str required (VStr d))) argv
  = Some (Some v) ->
  exists s, v = VStr s.
Proof.
  unfold Badread.parse_argument. simpl. destruct (supplied opt argv) as [raw|].
  - intros [= <-]. eauto.
  - destruct required; [done|]. intros [= <-]. eauto.
Qed.

Lemma parsed_returns_or_exits argv (ns : Namespace) :
  parse_command "simulate" argv = Some ns ->
  is_number MINL = true -> is_number MINI = true ->
  returns_or_exits (check_simulate_args ns).
Proof.
  intros H HL HI. simulate_namespace H.
  apply str_argument in P3 as [sl ->]. apply str_argument in P4 as [si ->].
  apply str_argument in P5 as [sel ->]. apply str_argument in P13 as [sg ->].
  apply float_argument in P10, P11, P12.
  eapply well_typed_returns_or_exits; lookups; first [reflexivity|eassumption].
Qed.

(** X11: [check_simulate_args] raises no exception, it returns or it exits
    with a message, on the namespace of any command line the [simulate]
    parser accepts, and more generally on a namespace whose
    [error_model], [length], [identity] and [glitches] are strings and
    whose three percentages are floats, or ints that convert to a
    float; the two constants of [settings] are numbers. *)
Theorem validation_raises_nothing (ns : Namespace) :
  is_number MINL = true -> is_number MINI = true ->
  (forall argv, parse_command "simulate" argv = Some ns ->
     returns_or_exits (check_simulate_args ns)) /\
  (forall sel c j r sl si sg,
     ns !! "error_model" = Some (VStr sel) ->
     ns !! "chimeras" = Some c -> percentage c = true ->
     ns !! "junk_reads" = Some j -> percentage j = true ->
     ns !! "random_reads" = Some r -> percentage r = true ->
     ns !! "length" = Some (VStr sl) ->
     ns !! "identity" = Some (VStr si) ->
     ns !! "glitches" = Some (VStr sg) ->
     returns_or_exits (check_simulate_args ns)).
Proof.
  intros HL HI. split.
  - intros argv H. by eapply parsed_returns_or_exits.
  - intros. by eapply well_typed_returns_or_exits.
Qed.

(** ** The defaults *)

(** X13: With no option of the validated parameters on the command line, the
    validation passes, and the derived attributes are the numbers of the
    defaults: 10000 and 9000 for the length, 85, 95 and 4 for the
    identity, 5000, 50 and 50 for the glitches.  This needs [float] to
    read the seven numerals of the defaults, and the two minimums of
    [settings] to be below the default means. *)
Theorem defaults_accepted argv (ns : Namespace) :
  parse_command "simulate" argv = Some ns ->
  (forall opt, opt ∈ inspected_options -> supplied opt argv = None) ->
  (forall s z, (s, z) ∈ default_numerals -> py_float s = Some (Float64.of_Z z)) ->
  py_le (VFloat (Float64.of_Z 10000)) MINL = Ok false ->
  py_le (VFloat (Float64.of_Z 85)) MINI = Ok false ->
  py_le (VFloat (Float64.of_Z 95)) MINI = Ok false ->
  check_simulate_args ns
  = Returns tt
      (<["glitch_skip" := VFloat (Float64.of_Z 50)]>
         (<["glitch_size" := VFloat (Float64.of_Z 50)]>
            (<["glitch_rate" := VFloat (Float64.of_Z 5000)]>
               (<["identity_shape" := VFloat (Float64.of_Z 4)]>
                  (<["max_identity" := VFloat (Float64.of_Z 95)]>
                     (<["mean_identity" := VFloat (Float64.of_Z 85)]>
                        (<["frag_length_stdev" := VFloat (Float64.of_Z 9000)]>
                           (<["mean_frag_length" := VFloat (Float64.of_Z 10000)]>
                              ns)))))))).
Proof.
  intros H Hs Hf HL HI1 HI2. simulate_namespace H.
  rewrite parse_argument_store in P3, P4, P5, P10, P11, P12, P13.
  rewrite (Hs "--length") in P3 by (unfold inspected_options; in_list).
  rewrite (Hs "--identity") in P4 by (unfold inspected_options; in_list).
  rewrite (Hs "--error_model") in P5 by (unfold inspected_options; in_list).
  rewrite (Hs "--junk_reads") in P10 by (unfold inspected_options; in_list).
  rewrite (Hs "--random_reads") in P11 by (unfold inspected_options; in_list).
  rewrite (Hs "--chimeras") in P12 by (unfold inspected_options; in_list).
  rewrite (Hs "--glitches") in P13 by (unfold inspected_options; in_list).
  injection P3 as <-. injection P4 as <-. injection P5 as <-.
  injection P10 as <-. injection P11 as <-. injection P12 as <-.
  injection P13 as <-.
  pose proof (Hf "10000" 10000 ltac:(unfold default_numerals; in_list)) as F1.
  pose proof (Hf "9000" 9000 ltac:(unfold default_numerals; in_list)) as F2.
  pose proof (Hf "85" 85 ltac:(unfold default_numerals; in_list)) as F3.
  pose proof (Hf "95" 95 ltac:(unfold default_numerals; in_list)) as F4.
  pose proof (Hf "4" 4 ltac:(unfold default_numerals; in_list)) as F5.
  pose proof (Hf "5000" 5000 ltac:(unfold default_numerals; in_list)) as F6.
  pose proof (Hf "50" 50 ltac:(unfold default_numerals; in_list)) as F7.
  apply check_simulate_args_accepted.
  eapply (Accepted _ _ _ _ _ "random" (VInt 1) (VInt 1) (VInt 1) (VInt 2)
            "10000,9000" _ _ [] "85,95,4" _ _ _ [] "5000,50,50" _ _ _ []);
    lookups;
    first
      [ reflexivity
      | eassumption
      | unfold Badread.parameters;
        change (split "," "10000,9000") with ["10000"; "9000"];
        change (split "," "85,95,4") with ["85"; "95"; "4"];
        change (split "," "5000,50,50") with ["5000"; "50"; "50"];
        cbn [map_res]; unfold float_of_str;
        rewrite ?F1, ?F2, ?F3, ?F4, ?F5, ?F6, ?F7; reflexivity
      | vm_compute; reflexivity ].
Qed.

(** ** The namespace of [badread plot] *)

(** X14: The three required options of [plot] are stored as given;
    [window] is 100 when [--window] is not given, and the integer [int]
    reads from its value when it is. *)
Theorem plot_namespace argv (ns : Namespace) :
  parse_command "plot" argv = Some ns ->
  ns !! "subparser_name" = Some (VStr "plot") /\
  ns !! "reference" = VStr <$> supplied "--reference" argv /\
  ns !! "reads" = VStr <$> supplied "--reads" argv /\
  ns !! "alignment" = VStr <$> supplied "--alignment" argv /\
  match supplied "--window" argv with
  | None => ns !! "window" = Some (VInt 100)
  | Some raw => exists z, py_int raw = Some z /\ ns !! "window" = Some (VInt z)
  end.
Proof.
  intros H. rewrite parse_command_plot in H.
  apply fmap_Some in H as (ns0 & H & ->). unfold plot_subparser in H.
  next_arg H reference P1. next_arg H reads P2. next_arg H alignment P3.
  next_arg H window P4. apply parse_args_help in H. subst.
  cbn [dest option_string].
  unfold Badread.parse_argument in P1, P2, P3, P4. simpl in P1, P2, P3, P4.
  destruct (supplied "--reference" argv) as [r1|]; [|done].
  destruct (supplied "--reads" argv) as [r2|]; [|done].
  destruct (supplied "--alignment" argv) as [r3|]; [|done].
  injection P1 as <-. injection P2 as <-. injection P3 as <-.
  repeat split; lookups; try reflexivity.
  destruct (supplied "--window" argv) as [raw|].
  - destruct (py_int raw) as [z|]; [|done]. injection P4 as <-.
    exists z. split; [done|]. by lookups.
  - injection P4 as <-. by lookups.
Qed.

(** ** What the declared arguments hold *)

Lemma parse_args_stored parser argv (ns : Namespace) :
  parse_args parser argv = Some ns ->
  NoDup ((fun a => dest (option_string a)) <$> parser) ->
  forall opt ty required default,
    add_argument opt (store ty required default) ∈ parser ->
    match supplied opt argv with
    | Some raw => exists v, convert ty raw = Some v /\ ns !! dest opt = Some v
    | None => required = false /\ ns !! dest opt = Some default
    end.
Proof.
  revert ns. induction parser as [|a parser IH]; intros ns H Hnd opt ty rq d Hin.
  - by apply elem_of_nil in Hin.
  - apply parse_args_cons in H as (ns0 & H & E).
    rewrite fmap_cons in Hnd. apply NoDup_cons in Hnd as [Hfresh Hnd].
    apply elem_of_cons in Hin as [<-|Hin].
    + unfold Badread.parse_argument in E. cbn [action option_string] in *.
      destruct (supplied opt argv) as [raw|].
      * destruct (convert ty raw) as [v|]; simpl in E; [|done]. subst ns.
        exists v. by rewrite lookup_insert_eq.
      * destruct rq; [done|]. subst ns. by rewrite lookup_insert_eq.
    + pose proof (IH _ H Hnd _ _ _ _ Hin) as Hs.
      assert (dest (option_string a) <> dest opt) as Hne.
      { intros Heq. apply Hfresh. rewrite Heq.
        apply list_elem_of_fmap.
        by exists (add_argument opt (store ty rq d)). }
      destruct (parse_argument a argv) as [[w|]|]; [subst ns|subst ns|done];
        [|exact Hs].
      destruct (supplied opt argv) as [raw|].
      * destruct Hs as (v & Hc & Hl). exists v.
        by rewrite lookup_insert_ne.
      * destruct Hs as [-> Hl]. by rewrite lookup_insert_ne.
Qed.

Lemma subparsers_dests command parser :
  (command, parser) ∈ subparsers ->
  NoDup ((fun a => dest (option_string a)) <$> parser) /\
  "subparser_name" ∉ (fun a => dest (option_string a)) <$> parser.
Proof.
  unfold subparsers. intros Hin.
  repeat (apply elem_of_cons in Hin as [[= -> ->]|Hin]);
    [..|by apply elem_of_nil in Hin].
  - change ((fun a => dest (option_string a)) <$> simulate_subparser)
      with [ "reference"; "quantity"; "length"; "identity"; "error_model";
             "start_adapter"; "end_adapter"; "start_adapter_seq";
             "end_adapter_seq"; "junk_reads"; "random_reads"; "chimeras";
             "glitches"; "small_plasmid_bias"; "help" ].
    split; [|not_in_list].
    repeat (apply NoDup_cons_2; [not_in_list|]). apply NoDup_nil_2.
  - change ((fun a => dest (option_string a)) <$> model_subparser)
      with [ "reference"; "reads"; "alignment"; "k_size"; "max_alignments";
             "max_alt"; "help" ].
    split; [|not_in_list].
    repeat (apply NoDup_cons_2; [not_in_list|]). apply NoDup_nil_2.
  - change ((fun a => dest (option_string a)) <$> plot_subparser)
      with [ "reference"; "reads"; "alignment"; "window"; "help" ].
    split; [|not_in_list].
    repeat (apply NoDup_cons_2; [not_in_list|]). apply NoDup_nil_2.
Qed.

(** X9: in the namespace of a command line that the parser of a command
    accepts, an argument declared with a value holds, when its option is
    given, the value of the last occurrence converted by the [type] of
    the declaration; when the option is not given, the argument is not
    a required one and holds the default of the declaration as it is
    written (the int 1 for the three percentages of [simulate], [None]
    for [max_alignments]).  The flag of [simulate] is true exactly when
    it is given. *)
Theorem declared_arguments_stored command parser argv (ns : Namespace) :
  (command, parser) ∈ subparsers ->
  parse_command command argv = Some ns ->
  (forall opt ty required default,
     add_argument opt (store ty required default) ∈ parser ->
     match supplied opt argv with
     | Some raw => exists v, convert ty raw = Some v /\ ns !! dest opt = Some v
     | None => required = false /\ ns !! dest opt = Some default
     end) /\
  (command = "simulate" ->
   ns !! "small_plasmid_bias"
   = Some (VBool (bool_decide
                    (is_Some (supplied "--small_plasmid_bias" argv))))).
Proof.
  intros Hsub H. destruct (subparsers_dests _ _ Hsub) as [Hnd Hname].
  split.
  2:{ intros ->. simulate_namespace H.
      unfold Badread.parse_argument in P14. cbn [action option_string] in P14.
      injection P14 as <-. by lookups. }
  apply parse_command_Some in H as (parser' & ns0 & Hsub' & Hp & ->).
  assert (parser' = parser) as ->.
  { unfold subparsers in Hsub, Hsub'.
    repeat (apply elem_of_cons in Hsub as [Hsub|Hsub]);
      [..|by apply elem_of_nil in Hsub];
      injection Hsub as -> ->;
      repeat (apply elem_of_cons in Hsub' as [Hsub'|Hsub']);
      try (by apply elem_of_nil in Hsub'); by injection Hsub'. }
  intros opt ty rq d Hin.
  pose proof (parse_args_stored _ _ _ Hp Hnd _ _ _ _ Hin) as Hs.
  assert ("subparser_name" <> dest opt) as Hne.
  { intros Heq. apply Hname. rewrite Heq. apply list_elem_of_fmap.
    by exists (add_argument opt (store ty rq d)). }
  by rewrite lookup_insert_ne.
Qed.

(** X12: after parsing, [main] runs the command of the command line.
    For [simulate] it validates once, and calls [simulate] on the
    validated namespace exactly when the validation returned; for
    [model] and [plot] it calls the entry point on the namespace as
    parsed.  A command line that a parser accepts never falls through
    the three tests of [main]. *)
Theorem main_runs_the_command command argv (ns : Namespace) :
  parse_command command argv = Some ns ->
  (command = "simulate" /\
   (main ns).1 = match check_simulate_args ns with
                 | Returns _ ns' => [Validate; Invoke simulate ns']
                 | _ => [Validate]
                 end) \/
  (command = "model" /\ (main ns).1 = [Invoke make_error_model ns]) \/
  (command = "plot" /\ (main ns).1 = [Invoke plot_window_identity ns]).
Proof.
  intros H. apply parse_command_Some in H as (parser & ns0 & Hin & _ & ->).
  unfold subparsers in Hin. unfold Badread.main. rewrite lookup_insert_eq.
  repeat (apply elem_of_cons in Hin as [[= -> ->]|Hin]);
    [|right; by left|right; by right|by apply elem_of_nil in Hin].
  left. split; [done|]. simpl.
  by destruct (check_simulate_args _) as [[] ns'|msg|e ns1].
Qed.

End CommandLine.

(** * The overview of the commands *)

Lemma append_assoc (a b c : string) : (a +:+ b) +:+ c = a +:+ (b +:+ c).
Proof.
  induction a as [|x a IH]; [reflexivity|].
  change (String x ((a +:+ b) +:+ c) = String x (a +:+ (b +:+ c))).
  by rewrite IH.
Qed.

Lemma append_nil_r (a : string) : a +:+ "" = a.
Proof.
  induction a as [|x a IH]; [reflexivity|].
  change (String x (a +:+ "") = String x a). by rewrite IH.
Qed.

(** What the loop adds for one command: the name, a colon, the
    padding, the description without its capital, a line end. *)
Lemma add_choices_lines w choices acc text :
  add_choices w choices acc = Ok text ->
  (forall p, p ∈ choices -> (String.length p.1 <= w)%nat) ->
  exists lines,
    text = acc +:+ foldr append "" lines /\
    Forall2 (fun p line =>
      exists n d',
        uncapitalised p.2 = Ok d' /\
        line = p.1 +:+ ": " +:+ spaces n +:+ d' +:+ newline /\
        (String.length p.1 + n = w)%nat) choices lines.
Proof.
  revert acc. induction choices as [|[c d] choices IH]; intros acc H Hw.
  - injection H as <-. exists []. split; [by rewrite append_nil_r|constructor].
  - cbn [add_choices] in H.
    destruct (uncapitalised d) as [d'|] eqn:Ed; [|discriminate]. simpl in H.
    apply IH in H as (lines & -> & HF);
      [|intros p Hp; apply Hw; by apply list_elem_of_further].
    exists ((c +:+ ": " +:+ spaces (w - String.length c) +:+ d' +:+ newline)
            :: lines).
    split.
    + cbn [foldr]. by rewrite !append_assoc.
    + constructor; [|exact HF].
      exists (w - String.length c)%nat, d'. repeat split; [done|].
      pose proof (Hw (c, d) (list_elem_of_here _ _)) as Hc. simpl in *. lia.
Qed.

(** X16: The overview that [main] builds starts with [R|] and has one line
    for each command: the name of the command, a colon and a space,
    spaces that make up for the length of the longest name, the
    description with its first letter in lower case.  So the
    descriptions all start in the same column. *)
Theorem subparsers_help_aligned choices text :
  subparsers_help choices = Ok text ->
  exists w lines,
    longest_choice_name choices = Ok w /\
    text = "R|" +:+ foldr append "" lines /\
    Forall2 (fun p line =>
      exists n d',
        uncapitalised p.2 = Ok d' /\
        line = p.1 +:+ ": " +:+ spaces n +:+ d' +:+ newline /\
        (String.length p.1 + n = w)%nat) choices lines.
Proof.
  unfold subparsers_help.
  destruct (longest_choice_name choices) as [w|] eqn:Ew; [|discriminate].
  simpl. intros H. apply add_choices_lines in H as (lines & -> & HF).
  - by exists w, lines.
  - intros p Hp. unfold longest_choice_name in Ew.
    destruct choices as [|q choices]; [discriminate|]. injection Ew as <-.
    refine (max_list_elem_of_le (String.length p.1)
              ((fun p : string * string => String.length p.1) <$> q :: choices)
              _).
    apply list_elem_of_fmap. by exists p.
Qed.

Lemma add_choices_Err w choices acc e :
  add_choices w choices acc = Err e
  <-> e = IndexError /\ exists c, (c, "") ∈ choices.
Proof.
  revert acc. induction choices as [|[c d] choices IH]; intros acc.
  - simpl. split; [done|]. intros (_ & c & Hc). by apply elem_of_nil in Hc.
  - cbn [add_choices]. destruct d as [|x d]; simpl.
    + split; [|by intros [-> _]]. intros [= <-]. split; [done|].
      exists c. apply list_elem_of_here.
    + rewrite IH. split; intros (-> & c' & Hc); (split; [done|]); exists c'.
      * by apply list_elem_of_further.
      * apply elem_of_cons in Hc as [Hc|Hc]; [discriminate Hc|exact Hc].
Qed.

(** X17: Building the overview fails in two ways only: with [ValueError]
    when there is no command ([max] of nothing), and with [IndexError]
    when a command has an empty description ([d[0]]). *)
Theorem subparsers_help_errors choices e :
  subparsers_help choices = Err e
  <-> (choices = [] /\ e = ValueError) \/
      (choices <> [] /\ e = IndexError /\ exists c, (c, "") ∈ choices).
Proof.
  unfold subparsers_help, longest_choice_name.
  destruct choices as [|p choices]; cbv beta iota delta [res_bind].
  - split; [intros [= <-]; by left|]. by intros [[_ ->]|[? _]].
  - rewrite add_choices_Err. split.
    + intros [-> H]. right. by repeat split.
    + intros [[? _]|(_ & -> & H)]; [done|]. by split.
Qed.

(** * Further runs on concrete command lines *)

Lemma check_simulate_args_idempotent_witness :
  run_check (validated (simulate_args [("--identity", "90,99,2")]))
  = Returns tt (validated (simulate_args [("--identity", "90,99,2")])).
Proof.
  apply (check_simulate_args_idempotent CPython.float_of_string CPython.format
           no_files (VInt 100) (VInt 50)
           (simulate_args [("--identity", "90,99,2")])).
  compute_run.
Defined.

Lemma exit_message_prefix_witness :
  exists rest,
    "Error: --junk_reads and --random_reads cannot sum to more than 100"
    = "Error: " +:+ rest.
Proof.
  apply (exit_message_prefix CPython.float_of_string CPython.format
           no_files (VInt 100) (VInt 50)
           (simulate_args [("--junk_reads", "60"); ("--random_reads", "60")])).
  compute_run.
Defined.

Lemma missing_attribute_witness :
  terminates_with_error (run_check (delete "error_model" (simulate_args []))) /\
  run_check (delete "error_model" (simulate_args []))
  = Raises AttributeError (delete "error_model" (simulate_args [])).
Proof.
  destruct (missing_attribute CPython.float_of_string CPython.format
              no_files (VInt 100) (VInt 50)
              (delete "error_model" (simulate_args [])) "error_model")
    as [T R].
  - unfold inspected. in_list.
  - apply lookup_delete_eq.
  - split; [exact T|by apply R].
Defined.

Lemma chimeras_checked_alone_witness :
  run_check (<["chimeras" := VInt 50]> (simulate_args []))
  = Returns tt (<["chimeras" := VInt 50]> (validated (simulate_args []))).
Proof.
  apply (chimeras_checked_alone CPython.float_of_string CPython.format
           no_files (VInt 100) (VInt 50) (simulate_args [])
           (validated (simulate_args [])) (VInt 50)).
  - compute_run.
  - reflexivity.
Defined.

Lemma surplus_values_ignored_witness :
  run_check (<["length" := VStr "10000,9000,77"]> (simulate_args []))
  = Returns tt
      (<["length" := VStr "10000,9000,77"]> (validated (simulate_args []))).
Proof.
  apply (surplus_values_ignored CPython.float_of_string CPython.format
           no_files (VInt 100) (VInt 50) (simulate_args [])
           (validated (simulate_args [])) "length" "10000,9000"
           [Float64.of_Z 10000; Float64.of_Z 9000] [Float64.of_Z 77]
           "10000,9000,77").
  - compute_run.
  - in_list.
  - compute_run.
  - compute_run.
  - compute_run.
Defined.

Lemma empty_field_rejected_witness :
  check_length CPython.float_of_string CPython.format (VInt 100)
    (simulate_args [("--length", "10000,9000,")])
  = SysExit "Error: could not parse --length values".
Proof.
  apply (empty_field_rejected CPython.float_of_string CPython.format
           (VInt 100) (VInt 50) (simulate_args [("--length", "10000,9000,")])
           "10000,9000,").
  - compute_run.
  - change (split "," "10000,9000,") with ["10000"; "9000"; ""]. in_list.
  - compute_run.
Defined.

Lemma other_attributes_ignored_witness :
  run_check (<["reference" := VStr "other.fasta"]> (simulate_args []))
  = outcome_map (insert "reference" (VStr "other.fasta"))
      (run_check (simulate_args [])).
Proof.
  apply (other_attributes_ignored CPython.float_of_string CPython.format
           no_files (VInt 100) (VInt 50)).
  - unfold inspected. not_in_list.
  - unfold derived_fields. not_in_list.
Defined.

Lemma entry_point_invoked_witness :
  (main CPython.float_of_string CPython.format no_files (VInt 100) (VInt 50)
     (simulate_args [])).2 = Finished /\
  run_check (simulate_args []) = Returns tt (validated (simulate_args [])).
Proof.
  destruct (entry_point_invoked CPython.float_of_string CPython.format
              no_files (VInt 100) (VInt 50) (simulate_args []) simulate
              (validated (simulate_args []))) as (F & R & _).
  - replace (main CPython.float_of_string CPython.format no_files (VInt 100)
               (VInt 50) (simulate_args [])).1
      with [Validate; Invoke simulate (validated (simulate_args []))]
      by compute_run.
    in_list.
  - split; [exact F|exact R].
Defined.

Lemma validation_raises_nothing_witness :
  returns_or_exits (run_check (simulate_args [("--chimeras", "nan")])) /\
  returns_or_exits (run_check (simulate_args [("--length", "long")])).
Proof.
  split.
  - apply (proj1 (validation_raises_nothing CPython.float_of_string
                    CPython.int_of_string CPython.format no_files
                    (VInt 100) (VInt 50)
                    (simulate_args [("--chimeras", "nan")])
                    eq_refl eq_refl)
             (required ++ [("--chimeras", "nan")])%list).
    compute_run.
  - eapply (proj2 (validation_raises_nothing CPython.float_of_string
                     CPython.int_of_string CPython.format no_files
                     (VInt 100) (VInt 50)
                     (simulate_args [("--length", "long")])
                     eq_refl eq_refl)); compute_run.
Defined.


Lemma simulate_namespace_attributes_witness :
  is_Some (simulate_args [] !! "small_plasmid_bias").
Proof.
  apply (simulate_namespace_attributes CPython.float_of_string
           CPython.int_of_string (required ++ [])%list (simulate_args [])).
  - compute_run.
  - unfold simulate_attributes. in_list.
Defined.

Lemma defaults_accepted_witness :
  run_check (simulate_args [("--start_adapter", "0.5,0.5")])
  = Returns tt
      (<["glitch_skip" := VFloat (Float64.of_Z 50)]>
         (<["glitch_size" := VFloat (Float64.of_Z 50)]>
            (<["glitch_rate" := VFloat (Float64.of_Z 5000)]>
               (<["identity_shape" := VFloat (Float64.of_Z 4)]>
                  (<["max_identity" := VFloat (Float64.of_Z 95)]>
                     (<["mean_identity" := VFloat (Float64.of_Z 85)]>
                        (<["frag_length_stdev" := VFloat (Float64.of_Z 9000)]>
                           (<["mean_frag_length" := VFloat (Float64.of_Z 10000)]>
                              (simulate_args [("--start_adapter", "0.5,0.5")]))))))))).
Proof.
  apply (defaults_accepted CPython.float_of_string CPython.int_of_string
           CPython.format no_files (VInt 100) (VInt 50)
           (required ++ [("--start_adapter", "0.5,0.5")])%list).
  - compute_run.
  - intros opt Hin. unfold inspected_options in Hin.
    repeat (apply elem_of_cons in Hin as [->|Hin]; [reflexivity|]).
    by apply elem_of_nil in Hin.
  - intros s z Hin. unfold default_numerals in Hin.
    repeat (apply elem_of_cons in Hin as [[= -> ->]|Hin]; [compute_run|]).
    by apply elem_of_nil in Hin.
  - reflexivity.
  - reflexivity.
  - reflexivity.
Defined.

Lemma plot_namespace_witness :
  command_line "plot"
    [("--reference", "ref.fasta"); ("--reads", "reads.fastq");
     ("--alignment", "reads.paf")] !! "window" = Some (VInt 100).
Proof.
  apply (plot_namespace CPython.float_of_string CPython.int_of_string
           [("--reference", "ref.fasta"); ("--reads", "reads.fastq");
            ("--alignment", "reads.paf")]).
  compute_run.
Defined.

Lemma subparsers_help_aligned_witness :
  exists w lines,
    longest_choice_name (choices id) = Ok w /\
    "R|simulate: badread: a long read simulator that can imitate many types of read problems"
    +:+ newline +:+ "model:    generate error model"
    +:+ newline +:+ "plot:     plot read window identities" +:+ newline
    = "R|" +:+ foldr append "" lines /\
    Forall2 (fun p line =>
      exists n d',
        uncapitalised p.2 = Ok d' /\
        line = p.1 +:+ ": " +:+ spaces n +:+ d' +:+ newline /\
        (String.length p.1 + n = w)%nat) (choices id) lines.
Proof.
  apply (subparsers_help_aligned (choices id)). compute_run.
Defined.


Lemma subparsers_help_errors_witness :
  subparsers_help [("simulate", "Simulate reads"); ("model", "")]
  = Err IndexError.
Proof.
  apply (proj2 (subparsers_help_errors
                  [("simulate", "Simulate reads"); ("model", "")] IndexError)).
  right. split; [done|]. split; [done|]. exists "model". in_list.
Defined.

Lemma declared_arguments_stored_witness :
  simulate_args [("--chimeras", "2.5")] !! "junk_reads" = Some (VInt 1) /\
  (exists v,
     convert CPython.float_of_string CPython.int_of_string type_float "2.5"
     = Some v /\
     simulate_args [("--chimeras", "2.5")] !! "chimeras" = Some v) /\
  simulate_args [("--chimeras", "2.5")] !! "small_plasmid_bias"
  = Some (VBool false).
Proof.
  destruct (declared_arguments_stored CPython.float_of_string
              CPython.int_of_string "simulate" simulate_subparser
              (required ++ [("--chimeras", "2.5")])%list
              (simulate_args [("--chimeras", "2.5")]))
    as [S F].
  - unfold subparsers. in_list.
  - compute_run.
  - split; [|split].
    + apply (S "--junk_reads" type_float false (VInt 1)).
      unfold simulate_subparser. in_list.
    + apply (S "--chimeras" type_float false (VInt 1)).
      unfold simulate_subparser. in_list.
    + by rewrite F.
Defined.

Lemma main_runs_the_command_witness :
  (main CPython.float_of_string CPython.format no_files (VInt 100) (VInt 50)
     (command_line "model"
        [("--reference", "ref.fasta"); ("--reads", "reads.fastq");
         ("--alignment", "reads.paf")])).1
  = [Invoke make_error_model
       (command_line "model"
          [("--reference", "ref.fasta"); ("--reads", "reads.fastq");
           ("--alignment", "reads.paf")])].
Proof.
  destruct (main_runs_the_command CPython.float_of_string
              CPython.int_of_string CPython.format no_files
              (VInt 100) (VInt 50) "model"
              [("--reference", "ref.fasta"); ("--reads", "reads.fastq");
               ("--alignment", "reads.paf")]
              (command_line "model"
                 [("--reference", "ref.fasta"); ("--reads", "reads.fastq");
                  ("--alignment", "reads.paf")])
              ltac:(compute_run))
    as [[E _]|[[_ E]|[E _]]]; [discriminate E|exact E|discriminate E].
Defined.
